(** * passport-youtube: the YouTube strategy (lib/passport-youtube-v3/strategy.js)

    A shallow embedding of the four functions of the strategy,

      - [Strategy]                 the constructor,
      - [userProfile]              the profile fetch and its completion,
      - [_convertProfileFields]    the profile field-name mapping,
      - [authorizationParams]      the extra authorization parameters,

    over a small model of the JavaScript values they handle, followed by
    the properties of the specification, one theorem per claim. *)

From Stdlib Require Import ZArith String Ascii.
From Stdlib Require Import Floats.SpecFloat.
From stdpp Require Import gmap strings list fin_maps pretty.

Local Open Scope string_scope.
Local Open Scope list_scope.

(** ** JavaScript values *)

(** Plain data is held by value: the values [JSON.parse] produces,
    option objects, parameter maps and profiles are never shared and
    mutated in this program, with one exception, the constructor's
    [options] argument, which lives in a store (see [heap] below).
    Objects are finite maps from property names to values; property order
    is not observed anywhere in the program.  Numbers are IEEE-754 binary64
    values.  [JHost name] is an object of the runtime (a native function,
    or [Object.prototype] itself), opaque and identified by its name. *)
#[warnings="-register-all"]
Inductive jsval : Type :=
| JUndefined
| JNull
| JBool (b : bool)
| JNum (x : spec_float)
| JStr (s : string)
| JArr (elements : list jsval)
| JObj (properties : gmap string jsval)
| JHost (name : string).

(** What a [throw] carries. *)
Inductive exn : Type :=
| SyntaxError (message : string)
| TypeError_read (base : jsval) (prop : string)
| Raised (v : jsval).

(** Evaluation that may throw. *)
Definition js (A : Type) : Type := (exn + A)%type.

Definition js_bind {A B : Type} (m : js A) (k : A -> js B) : js B :=
  match m with
  | inl e => inl e
  | inr a => k a
  end.

Notation "'let*' x ':=' m 'in' k" := (js_bind m (fun x => k))
  (at level 10, x name, m at level 200, k at level 200, only parsing).

(** ToBoolean. *)
Definition truthy (v : jsval) : bool :=
  match v with
  | JUndefined | JNull => false
  | JBool b => b
  | JNum (S754_zero _) | JNum S754_nan => false
  | JNum _ => true
  | JStr "" => false
  | JStr _ => true
  | JArr _ | JObj _ | JHost _ => true
  end.

(** [a && b] and [a || b]; the right operand is only looked at when the
    left one does not decide. *)
Definition js_and (a b : js jsval) : js jsval :=
  let* x := a in if truthy x then b else inr x.

Definition js_or (a b : jsval) : jsval :=
  if truthy a then a else b.

(** The [length] of an array or a string: a non-negative integer, exact as
    a double (lengths stay below 2^32).  It is given with mantissa [n] and
    exponent 0, not normalised: the program only tests it for being zero. *)
Definition number_of_nat (n : nat) : spec_float :=
  match n with
  | O => S754_zero false
  | S _ => S754_finite false (Pos.of_nat n) 0
  end.

(** The property names every object inherits from [Object.prototype]
    (ECMA-262, including the legacy accessors of Annex B). *)
Definition Object_prototype : list string :=
  [ "constructor"; "hasOwnProperty"; "isPrototypeOf"; "propertyIsEnumerable";
    "toLocaleString"; "toString"; "valueOf"; "__proto__";
    "__defineGetter__"; "__defineSetter__"; "__lookupGetter__";
    "__lookupSetter__" ].

Definition inherited (k : string) : jsval :=
  if decide (k ∈ Object_prototype) then JHost k else JUndefined.

(** [o[k]] on an object: an own property, else what [Object.prototype]
    has under that name, else [undefined]. *)
Definition obj_get (o : gmap string jsval) (k : string) : jsval :=
  match o !! k with
  | Some v => v
  | None => inherited k
  end.

(** Canonical array indices: ["0"], ["1"], ... *)
Fixpoint digits_value (s : string) (acc : nat) : option nat :=
  match s with
  | "" => Some acc
  | String c s' =>
      let d := nat_of_ascii c in
      if (48 <=? d)%nat && (d <=? 57)%nat
      then digits_value s' (10 * acc + (d - 48))
      else None
  end.

Definition array_index (k : string) : option nat :=
  match k with
  | "" => None
  | _ =>
      match digits_value k 0 with
      | Some n => if decide (pretty n = k) then Some n else None
      | None => None
      end
  end.

(** [v[k]], the property read.  It throws on [undefined] and [null].
    Arrays and strings have their [length] and their indexed elements as
    own properties.  Of the prototype chain only its end,
    [Object.prototype], is modelled: the names this program reads from
    arrays, strings, numbers and booleans ([length], [0], [id],
    [snippet], [title]) are defined on none of the intermediate
    prototypes.  Strings are sequences of code units, here characters. *)
Definition get (v : jsval) (k : string) : js jsval :=
  match v with
  | JUndefined | JNull => inl (TypeError_read v k)
  | JObj o => inr (obj_get o k)
  | JArr l =>
      if decide (k = "length") then inr (JNum (number_of_nat (length l)))
      else match array_index k with
           | Some i => inr (default JUndefined (l !! i))
           | None => inr (inherited k)
           end
  | JStr s =>
      if decide (k = "length") then inr (JNum (number_of_nat (String.length s)))
      else match array_index k with
           | Some i =>
               inr (match String.get i s with
                    | Some c => JStr (String c "")
                    | None => JUndefined
                    end)
           | None => inr (inherited k)
           end
  | JBool _ | JNum _ | JHost _ => inr (inherited k)
  end.

(** [Array.prototype.join]: [undefined] and [null] elements give the empty
    string, strings stand for themselves, and every other element goes
    through the runtime's [ToString], whose text for host objects is
    implementation-defined. *)
Definition join_element (ToString : jsval -> string) (v : jsval) : string :=
  match v with
  | JUndefined | JNull => ""
  | JStr s => s
  | _ => ToString v
  end.

Definition join (ToString : jsval -> string) (sep : string) (l : list jsval) : string :=
  String.concat sep (List.map (join_element ToString) l).

(** ** The store *)

(** The constructor writes into the object its caller passes, and into
    [this]; both are cells of a store of objects, addressed by location. *)
Abbreviation loc := nat (only parsing).
Abbreviation heap := (gmap nat (gmap string jsval)) (only parsing).

Definition get_field (σ : heap) (l : loc) (k : string) : jsval :=
  match σ !! l with
  | Some o => obj_get o k
  | None => JUndefined
  end.

Definition set_field (σ : heap) (l : loc) (k : string) (v : jsval) : heap :=
  alter (fun o => <[k := v]> o) l σ.

(** ** The constructor *)

Section Constructor.

(** The base constructor, [OAuth2Strategy.call(this, options, verify)]:
    a collaborator, which may change the store and may throw. *)
Variable OAuth2Strategy : heap -> loc -> loc -> jsval -> heap * option exn.

(** [options] is [None] when the caller passes no options object,
    [Some l] when it passes the object at [l].  The result is the store
    the call leaves behind and the exception that escaped it, if any. *)
Definition Strategy (σ : heap) (this : loc) (options : option loc) (verify : jsval)
  : heap * option exn :=
  let '(σ, options) :=
    match options with
    | Some l => (σ, l)
    | None => let l := fresh (dom σ) in (<[l := ∅]> σ, l)
    end in
  let σ := set_field σ options "authorizationURL"
             (js_or (get_field σ options "authorizationURL")
                    (JStr "https://accounts.google.com/o/oauth2/auth")) in
  let σ := set_field σ options "tokenURL"
             (js_or (get_field σ options "tokenURL")
                    (JStr "https://accounts.google.com/o/oauth2/token")) in
  let σ := set_field σ options "scope"
             (js_or (get_field σ options "scope")
                    (JArr [JStr "https://www.googleapis.com/auth/youtube.readonly"])) in
  match OAuth2Strategy σ this options verify with
  | (σ, Some e) => (σ, Some e)
  | (σ, None) =>
      let σ := set_field σ this "name" (JStr "youtube") in
      let σ := set_field σ this "_profileURL"
                 (js_or (get_field σ options "profileURL")
                        (JStr "https://www.googleapis.com/youtube/v3/channels?part=snippet&mine=true")) in
      (σ, None)
  end.

End Constructor.

(** ** Retrieving the user profile *)

(** The error handed to [done]: an [InternalOAuthError] built from a
    message and the error it wraps, or an exception caught by the
    [try] block, passed on as it is. *)
Inductive failure : Type :=
| InternalOAuthError (message : string) (oauthError : jsval)
| Caught (e : exn).

(** One call of [done]: [done(err)] or [done(null, profile)]. *)
Inductive completion : Type :=
| done_error (err : failure)
| done_profile (profile : gmap string jsval).

(** What running the response callback amounts to: the calls of [done] it
    made, in order, and the exception that escaped it, if any. *)
Record run : Type := Run { calls : list completion; uncaught : option exn }.

Section UserProfile.

(** The runtime's [JSON.parse]. *)
Variable JSON_parse : string -> js jsval.

(** [this._oauth2.getProtectedResource(url, accessToken, callback)]:
    the [(err, body)] it hands to its callback. *)
Variable getProtectedResource : jsval -> string -> jsval * string.

(** The caller's continuation: [None] when the call returns, [Some e]
    when it throws [e]. *)
Variable done : completion -> option exn.

(** The [try] block from the read of the items to the call of [done]
    (lines 60 to 70). *)
Definition profile_of_json (body : string) (json : jsval) : js (gmap string jsval) :=
  let* youtubeProfile :=
    js_and (js_and (get json "items")
                   (let* items := get json "items" in get items "length"))
           (let* items := get json "items" in get items "0") in
  let profile : gmap string jsval := {[ "provider" := JStr "youtube" ]} in
  let* profile :=
    if truthy youtubeProfile then
      let* id := get youtubeProfile "id" in
      let profile := <["id" := id]> profile in
      let* snippet := get youtubeProfile "snippet" in
      let* title := get snippet "title" in
      inr (<["displayName" := title]> profile)
    else inr profile in
  let profile := <["_raw" := JStr body]> profile in
  let profile := <["_json" := json]> profile in
  inr profile.

(** The [try] block up to the call of [done] (lines 58 to 70). *)
Definition profile_of_body (body : string) : js (gmap string jsval) :=
  let* json := JSON_parse body in
  profile_of_json body json.

(** The callback given to [getProtectedResource] (lines 53 to 76).  An
    exception thrown by [done(null, profile)] is caught like any other
    and handed to [done] again. *)
Definition on_response (err : jsval) (body : string) : run :=
  if truthy err then
    let c := done_error (InternalOAuthError "failed to fetch user profile" err) in
    Run [c] (done c)
  else
    match profile_of_body body with
    | inr profile =>
        let c := done_profile profile in
        match done c with
        | None => Run [c] None
        | Some e => let c' := done_error (Caught e) in Run [c; c'] (done c')
        end
    | inl e => let c := done_error (Caught e) in Run [c] (done c)
    end.

Definition userProfile (σ : heap) (this : loc) (accessToken : string) : run :=
  let url := get_field σ this "_profileURL" in
  let '(err, body) := getProtectedResource url accessToken in
  on_response err body.

End UserProfile.

(** ** Profile field names *)

(** The [map] of [_convertProfileFields] (lines 80 to 85): an object
    literal, which inherits from [Object.prototype]. *)
Definition map : gmap string jsval :=
  {[ "id" := JStr "id";
     "username" := JStr "username";
     "displayName" := JStr "name";
     "name" := JArr [JStr "last_name"; JStr "first_name"] ]}.

(** The [forEach] callback (lines 89 to 97): what the field name [f] adds
    to [fields]. *)
Definition each_field (fields : list jsval) (f : string) : list jsval :=
  match obj_get map f with
  | JUndefined => fields
  | JArr l => fields ++ l
  | v => fields ++ [v]
  end.

Definition _convertProfileFields (ToString : jsval -> string) (profileFields : list string)
  : jsval :=
  let fields := fold_left each_field profileFields [] in
  JStr (join ToString "," fields).

(** ** Authorization parameters *)

(** [if (c) { params[k] = v; }] *)
Definition set_if (c : jsval) (k : string) (v : jsval) (params : gmap string jsval)
  : gmap string jsval :=
  if truthy c then <[k := v]> params else params.

Definition authorizationParams (options : gmap string jsval) : gmap string jsval :=
  let params : gmap string jsval := ∅ in
  let params := set_if (obj_get options "accessType")
                  "access_type" (obj_get options "accessType") params in
  let params := set_if (obj_get options "approvalPrompt")
                  "approval_prompt" (obj_get options "approvalPrompt") params in
  let params := set_if (obj_get options "prompt")
                  "prompt" (obj_get options "prompt") params in
  let params := set_if (obj_get options "loginHint")
                  "login_hint" (obj_get options "loginHint") params in
  let params := set_if (obj_get options "userID")
                  "user_id" (obj_get options "userID") params in
  let params := set_if (js_or (obj_get options "hostedDomain") (obj_get options "hd"))
                  "hd" (js_or (obj_get options "hostedDomain") (obj_get options "hd")) params in
  let params := set_if (obj_get options "display")
                  "display" (obj_get options "display") params in
  let params := set_if (obj_get options "requestVisibleActions")
                  "request_visible_actions" (obj_get options "requestVisibleActions") params in
  let params := set_if (obj_get options "openIDRealm")
                  "openid.realm" (obj_get options "openIDRealm") params in
  params.

(** ** A reader for a fragment of JSON

    The development is parametric in [JSON.parse].  The closed examples
    need one instance; [read_json] reads the JSON texts made of objects,
    arrays, strings without escapes, integer literals and the three
    keywords, and rejects every other text with a [SyntaxError]. *)

Definition double_quote : ascii := ascii_of_nat 34.

(** Body texts are written with ['] for the double quote. *)
Fixpoint quoted (s : string) : string :=
  match s with
  | "" => ""
  | String c s' => String (if Ascii.eqb c "'" then double_quote else c) (quoted s')
  end.

Definition is_space (c : ascii) : bool :=
  let n := nat_of_ascii c in
  (n =? 32)%nat || (n =? 9)%nat || (n =? 10)%nat || (n =? 13)%nat.

Definition is_digit (c : ascii) : bool :=
  let n := nat_of_ascii c in (48 <=? n)%nat && (n <=? 57)%nat.

Fixpoint skip_space (s : string) : string :=
  match s with
  | String c s' => if is_space c then skip_space s' else s
  | "" => ""
  end.

Fixpoint strip_prefix (p s : string) : option string :=
  match p, s with
  | "", _ => Some s
  | String a p', String b s' => if Ascii.eqb a b then strip_prefix p' s' else None
  | String _ _, "" => None
  end.

(** The characters of a string literal, after its opening quote. *)
Fixpoint read_string (s : string) : option (string * string) :=
  match s with
  | "" => None
  | String c s' =>
      if Ascii.eqb c double_quote then Some ("", s')
      else if Ascii.eqb c "\" then None
      else if (nat_of_ascii c <? 32)%nat then None
      else match read_string s' with
           | Some (t, r) => Some (String c t, r)
           | None => None
           end
  end.

Fixpoint read_digits (s : string) (acc : Z) : Z * string :=
  match s with
  | String c s' =>
      if is_digit c
      then read_digits s' (10 * acc + Z.of_nat (nat_of_ascii c - 48))%Z
      else (acc, s)
  | "" => (acc, "")
  end.

(** An integer literal, rounded to the nearest double. *)
Definition read_number (s : string) : option (jsval * string) :=
  let '(negative, s) :=
    match s with
    | String "-" s' => (true, s')
    | _ => (false, s)
    end in
  match s with
  | String c s' =>
      if negb (is_digit c) then None
      else
        let '(n, r) := read_digits s 0 in
        let leading_zero :=
          Ascii.eqb c "0" && match s' with String d _ => is_digit d | "" => false end in
        let continued :=
          match r with
          | String d _ => Ascii.eqb d "." || Ascii.eqb d "e" || Ascii.eqb d "E"
          | "" => false
          end in
        if leading_zero || continued then None
        else Some (JNum (binary_normalize 53 1024 (if negative then - n else n) 0 negative), r)
  | "" => None
  end.

Fixpoint read_elements (read : string -> option (jsval * string))
    (fuel : nat) (s : string) (acc : list jsval) : option (jsval * string) :=
  match fuel with
  | O => None
  | S fuel =>
      match read s with
      | Some (v, r) =>
          match skip_space r with
          | String c r' =>
              if Ascii.eqb c "," then read_elements read fuel r' (acc ++ [v])
              else if Ascii.eqb c "]" then Some (JArr (acc ++ [v]), r')
              else None
          | "" => None
          end
      | None => None
      end
  end.

Fixpoint read_members (read : string -> option (jsval * string))
    (fuel : nat) (s : string) (acc : gmap string jsval) : option (jsval * string) :=
  match fuel with
  | O => None
  | S fuel =>
      match skip_space s with
      | String q r =>
          if negb (Ascii.eqb q double_quote) then None
          else
            match read_string r with
            | Some (k, r) =>
                match skip_space r with
                | String c r =>
                    if negb (Ascii.eqb c ":") then None
                    else
                      match read r with
                      | Some (v, r) =>
                          match skip_space r with
                          | String c r' =>
                              if Ascii.eqb c "," then read_members read fuel r' (<[k := v]> acc)
                              else if Ascii.eqb c "}" then Some (JObj (<[k := v]> acc), r')
                              else None
                          | "" => None
                          end
                      | None => None
                      end
                | "" => None
                end
            | None => None
            end
      | "" => None
      end
  end.

Fixpoint read_value (fuel : nat) (s : string) : option (jsval * string) :=
  match fuel with
  | O => None
  | S fuel =>
      match skip_space s with
      | "" => None
      | String c r as s0 =>
          if Ascii.eqb c "{" then
            match skip_space r with
            | String d r' =>
                if Ascii.eqb d "}" then Some (JObj ∅, r')
                else read_members (read_value fuel) fuel r ∅
            | "" => None
            end
          else if Ascii.eqb c "[" then
            match skip_space r with
            | String d r' =>
                if Ascii.eqb d "]" then Some (JArr [], r')
                else read_elements (read_value fuel) fuel r []
            | "" => None
            end
          else if Ascii.eqb c double_quote then
            match read_string r with
            | Some (t, r') => Some (JStr t, r')
            | None => None
            end
          else
            match strip_prefix "null" s0, strip_prefix "true" s0, strip_prefix "false" s0 with
            | Some r', _, _ => Some (JNull, r')
            | _, Some r', _ => Some (JBool true, r')
            | _, _, Some r' => Some (JBool false, r')
            | None, None, None => read_number s0
            end
      end
  end.

Definition read_json (text : string) : js jsval :=
  match read_value (S (String.length text)) text with
  | Some (v, r) =>
      match skip_space r with
      | "" => inr v
      | String _ _ => inl (SyntaxError "Unexpected token")
      end
  | None => inl (SyntaxError "Unexpected token")
  end.

(** ** Vocabulary of the specification *)

(** The member [k] of a JSON object; a JSON value that is not an object
    has no members. *)
Definition member (json : jsval) (k : string) : option jsval :=
  match json with
  | JObj o => o !! k
  | _ => None
  end.

(** A run completes with [c]: [c] is the first call of [done], and the
    only one unless that very call throws. *)
Definition completes_with (done : completion -> option exn) (r : run) (c : completion)
  : Prop :=
  head (calls r) = Some c /\ (done c = None -> r = Run [c] None).

(** The profile shapes of the specification. *)
Definition Profile (id displayName : jsval) (raw : string) (json : jsval)
  : gmap string jsval :=
  {[ "provider" := JStr "youtube"; "id" := id; "displayName" := displayName;
     "_raw" := JStr raw; "_json" := json ]}.

Definition empty_Profile (raw : string) (json : jsval) : gmap string jsval :=
  {[ "provider" := JStr "youtube"; "_raw" := JStr raw; "_json" := json ]}.

(** The authorization options and the query key documented for each. *)
Definition recognized_options : list string :=
  [ "accessType"; "approvalPrompt"; "prompt"; "loginHint"; "userID";
    "hostedDomain"; "hd"; "display"; "requestVisibleActions"; "openIDRealm" ].

Definition param_key (option_name : string) : string :=
  match option_name with
  | "accessType" => "access_type"
  | "approvalPrompt" => "approval_prompt"
  | "loginHint" => "login_hint"
  | "userID" => "user_id"
  | "hostedDomain" => "hd"
  | "requestVisibleActions" => "request_visible_actions"
  | "openIDRealm" => "openid.realm"
  | _ => option_name
  end.

(** The profile field names and the provider fields documented for each. *)
Definition recognized_fields : list string :=
  [ "id"; "username"; "displayName"; "name" ].

Definition provider_fields (f : string) : list string :=
  if decide (f = "id") then ["id"]
  else if decide (f = "username") then ["username"]
  else if decide (f = "displayName") then ["name"]
  else if decide (f = "name") then ["last_name"; "first_name"]
  else [].

(** ** Instances for the closed examples *)

(** A continuation that returns, and one that throws on a profile. *)
Definition done_returns : completion -> option exn := fun _ => None.

Definition done_throws : completion -> option exn :=
  fun c =>
    match c with
    | done_profile _ => Some (Raised (JStr "verify failed"))
    | done_error _ => None
    end.

(** A fetch that answers with [body], and one that fails with [err]. *)
Definition fetch_body (body : string) : jsval -> string -> jsval * string :=
  fun _ _ => (JNull, body).

Definition fetch_error (err : jsval) : jsval -> string -> jsval * string :=
  fun _ _ => (err, "").

(** A base constructor that keeps [verify] on [this] and leaves the
    options alone, as passport-oauth's does. *)
Definition base_keeps_verify : heap -> loc -> loc -> jsval -> heap * option exn :=
  fun σ this _ verify => (set_field σ this "_verify" verify, None).

(** The text V8 gives for host objects. *)
Definition host_text (v : jsval) : string :=
  match v with
  | JHost "__proto__" => "[object Object]"
  | JHost name => "function " ++ name ++ "() { [native code] }"
  | _ => ""
  end.

(** Option objects: three recognized options; both names of the hosted
    domain; and an empty [hostedDomain] next to a set [hd]. *)
Definition three_options : gmap string jsval :=
  {[ "accessType" := JStr "offline";
     "loginHint" := JStr "someone@example.com";
     "openIDRealm" := JStr "https://example.com/" ]}.

Definition both_domains : gmap string jsval :=
  {[ "hostedDomain" := JStr "example.com"; "hd" := JStr "example.org" ]}.

Definition empty_hostedDomain : gmap string jsval :=
  {[ "hostedDomain" := JStr ""; "hd" := JStr "example.org" ]}.

(** A store with a fresh [this] at 0 and a caller's options at 1. *)
Definition caller_store : heap :=
  {[ 0 := ∅;
     1 := {[ "clientID" := JStr "client";
             "tokenURL" := JStr "https://example.com/token";
             "scope" := JStr "" ]} ]}.

(** A strategy instance at location 0, as the constructor leaves it. *)
Definition strategy_store : heap :=
  (Strategy base_keeps_verify {[ 0 := ∅ ]} 0 None (JHost "verify")).1.

(** ** Further vocabulary and instances *)

(** An options object once the constructor has filled in its defaults. *)
Definition with_defaults (o : gmap string jsval) : gmap string jsval :=
  <["scope" := js_or (obj_get o "scope")
                 (JArr [JStr "https://www.googleapis.com/auth/youtube.readonly"])]>
    (<["tokenURL" := js_or (obj_get o "tokenURL")
                       (JStr "https://accounts.google.com/o/oauth2/token")]>
       (<["authorizationURL" := js_or (obj_get o "authorizationURL")
                                  (JStr "https://accounts.google.com/o/oauth2/auth")]> o)).

(** The query keys [authorizationParams] writes. *)
Definition param_keys : list string :=
  [ "access_type"; "approval_prompt"; "prompt"; "login_hint"; "user_id";
    "hd"; "display"; "request_visible_actions"; "openid.realm" ].

(** What one requested name adds to the fields, whatever the name: the
    provider fields of a recognized name, the inherited object of a name
    that [Object.prototype] defines, and nothing for any other name. *)
Definition contribution (f : string) : list jsval :=
  if decide (f ∈ recognized_fields) then JStr <$> provider_fields f
  else if decide (f ∈ Object_prototype) then [JHost f]
  else [].

(** Two values that are equal, or both falsy, are the same to an [if]
    that guards an assignment of the value tested. *)
Definition same_or_falsy (a b : jsval) : Prop :=
  a = b \/ (truthy a = false /\ truthy b = false).

(** The property names a profile can have. *)
Definition profile_keys : list string :=
  [ "provider"; "id"; "displayName"; "_raw"; "_json" ].

(** A base constructor that rejects its arguments. *)
Definition base_throws : heap -> loc -> loc -> jsval -> heap * option exn :=
  fun σ _ _ _ => (σ, Some (Raised (JStr "OAuth2Strategy requires a verify callback"))).

(** A store whose options, at 1, are fully configured, with a second
    fresh [this] at 2. *)
Definition configured_store : heap :=
  {[ 0 := ∅;
     1 := {[ "authorizationURL" := JStr "https://example.com/auth";
             "tokenURL" := JStr "https://example.com/token";
             "scope" := JArr [JStr "profile"];
             "profileURL" := JStr "https://example.com/me" ]};
     2 := ∅ ]}.

(** Option objects with an unrecognized and with a falsy option. *)
Definition falsy_option : gmap string jsval :=
  {[ "accessType" := JStr "offline"; "prompt" := JStr "" ]}.

Definition only_hd : gmap string jsval :=
  {[ "hostedDomain" := JNull; "hd" := JStr "example.org" ]}.

Example read_json_items :
  read_json (quoted "{'items':[{'id':'abc','snippet':{'title':'My Channel'}}]}")
  = inr (JObj {[ "items" :=
                   JArr [JObj {[ "id" := JStr "abc";
                                 "snippet" := JObj {[ "title" := JStr "My Channel" ]} ]}] ]}).
Proof. vm_compute. reflexivity. Qed.

Example read_json_numbers :
  read_json " [0, -0, 12, null, true] "
  = inr (JArr [JNum (S754_zero false); JNum (S754_zero true);
               JNum (S754_finite false 6755399441055744 (-49)); JNull; JBool true]).
Proof. vm_compute. reflexivity. Qed.

Example read_json_rejects : read_json "not json" = inl (SyntaxError "Unexpected token").
Proof. reflexivity. Qed.

Example strategy_store_profileURL :
  get_field strategy_store 0 "_profileURL"
  = JStr "https://www.googleapis.com/youtube/v3/channels?part=snippet&mine=true".
Proof. vm_compute. reflexivity. Qed.

(** ** Property reads and truthiness *)

Lemma truthy_number_of_nat (n : nat) :
  truthy (JNum (number_of_nat n)) = negb (n =? 0)%nat.
Proof. destruct n; reflexivity. Qed.

Lemma inherited_undefined (k : string) :
  k ∉ Object_prototype -> inherited k = JUndefined.
Proof. intros Hk. unfold inherited. case_decide; [contradiction | reflexivity]. Qed.

Lemma inherited_host (k : string) :
  k ∈ Object_prototype -> inherited k = JHost k.
Proof. intros Hk. unfold inherited. case_decide; [reflexivity | contradiction]. Qed.

Lemma truthy_inherited (k : string) :
  truthy (inherited k) = bool_decide (k ∈ Object_prototype).
Proof. unfold inherited. case_decide; [rewrite bool_decide_eq_true_2 | rewrite bool_decide_eq_false_2]; done. Qed.

Lemma obj_get_Some (o : gmap string jsval) (k : string) (v : jsval) :
  o !! k = Some v -> obj_get o k = v.
Proof. intros H. unfold obj_get. rewrite H. reflexivity. Qed.

Lemma obj_get_None (o : gmap string jsval) (k : string) :
  o !! k = None -> obj_get o k = inherited k.
Proof. intros H. unfold obj_get. rewrite H. reflexivity. Qed.

Lemma get_member (json : jsval) (k : string) (v : jsval) :
  member json k = Some v -> get json k = inr v.
Proof.
  destruct json; simpl; try discriminate.
  intros H. f_equal. by apply obj_get_Some.
Qed.

(** A value without the member [k] reads as [undefined] under any name
    that [Object.prototype] does not define, unless the value is
    [undefined] or [null], where the read throws. *)
Lemma get_no_member (json : jsval) (k : string) :
  json <> JUndefined -> json <> JNull ->
  member json k = None ->
  k <> "length" -> array_index k = None -> k ∉ Object_prototype ->
  get json k = inr JUndefined.
Proof.
  intros Hu Hn Hm Hl Hi Hk.
  destruct json; simpl in *; try congruence;
    rewrite ?decide_False by done; rewrite ?Hi;
    rewrite ?(obj_get_None _ _ Hm); by rewrite inherited_undefined.
Qed.

Lemma get_defined (v : jsval) (k : string) :
  v <> JUndefined -> v <> JNull -> exists x, get v k = inr x.
Proof.
  intros Hu Hn. destruct v; simpl; try congruence; eauto;
    case_decide; eauto; destruct (array_index k); eauto.
Qed.

Lemma get_throws (v : jsval) (k : string) (e : exn) :
  get v k = inl e -> (v = JUndefined \/ v = JNull) /\ e = TypeError_read v k.
Proof.
  destruct v; simpl; intros H; try (inversion H; subst; by auto);
    repeat case_decide; try discriminate; destruct (array_index k); discriminate.
Qed.

(** [json.items && json.items.length && json.items[0]] on a non-empty
    array is its first element, and on an empty one the number zero. *)
Lemma first_of_items (json x : jsval) (rest : list jsval) :
  get json "items" = inr (JArr (x :: rest)) ->
  js_and (js_and (get json "items")
                 (let* items := get json "items" in get items "length"))
         (let* items := get json "items" in get items "0")
  = inr x.
Proof. intros ->. reflexivity. Qed.

Lemma first_of_no_items (json : jsval) :
  get json "items" = inr (JArr []) ->
  js_and (js_and (get json "items")
                 (let* items := get json "items" in get items "length"))
         (let* items := get json "items" in get items "0")
  = inr (JNum (S754_zero false)).
Proof. intros ->. reflexivity. Qed.

Lemma first_of_falsy_items (json v : jsval) :
  get json "items" = inr v -> truthy v = false ->
  js_and (js_and (get json "items")
                 (let* items := get json "items" in get items "length"))
         (let* items := get json "items" in get items "0")
  = inr v.
Proof. intros -> Hv. simpl. rewrite Hv. simpl. by rewrite Hv. Qed.

(** ** The profile built from a response body *)

Lemma profile_of_json_item (body : string) (json : jsval)
    (item : gmap string jsval) (rest : list jsval) (snippet title : jsval) :
  member json "items" = Some (JArr (JObj item :: rest)) ->
  item !! "snippet" = Some snippet ->
  get snippet "title" = inr title ->
  profile_of_json body json = inr (Profile (obj_get item "id") title body json).
Proof.
  intros Hi Hs Ht. unfold profile_of_json.
  rewrite (first_of_items _ _ _ (get_member _ _ _ Hi)). simpl.
  rewrite (obj_get_Some _ _ _ Hs), Ht. reflexivity.
Qed.

Lemma profile_of_json_no_snippet (body : string) (json : jsval)
    (item : gmap string jsval) (rest : list jsval) :
  member json "items" = Some (JArr (JObj item :: rest)) ->
  item !! "snippet" = None ->
  profile_of_json body json = inl (TypeError_read JUndefined "title").
Proof.
  intros Hi Hs. unfold profile_of_json.
  rewrite (first_of_items _ _ _ (get_member _ _ _ Hi)). simpl.
  rewrite (obj_get_None _ _ Hs). reflexivity.
Qed.

Lemma profile_of_json_empty (body : string) (json : jsval) :
  json <> JUndefined -> json <> JNull ->
  member json "items" = None \/ member json "items" = Some (JArr []) ->
  profile_of_json body json = inr (empty_Profile body json).
Proof.
  intros Hu Hn Hi. unfold profile_of_json.
  destruct Hi as [Hi | Hi].
  - rewrite (first_of_falsy_items json JUndefined); [| | reflexivity].
    + reflexivity.
    + apply get_no_member; try done. compute_done.
  - rewrite (first_of_no_items _ (get_member _ _ _ Hi)). reflexivity.
Qed.

(** A truthy value is neither [undefined] nor [null]: reading from it
    does not throw. *)
Lemma get_truthy (v : jsval) (k : string) :
  truthy v = true -> exists x, get v k = inr x.
Proof. intros Hv. apply get_defined; intros ->; discriminate. Qed.

(** The only exceptions of the field reads: the read of [items] from a
    response that is [null] (or [undefined]), and the read of [title]
    from a first item whose snippet is missing or [null]. *)
Lemma profile_of_json_throws (body : string) (json : jsval) (e : exn) :
  profile_of_json body json = inl e ->
  ((json = JUndefined \/ json = JNull) /\ e = TypeError_read json "items")
  \/ (exists snippet,
        (snippet = JUndefined \/ snippet = JNull)
        /\ e = TypeError_read snippet "title").
Proof.
  unfold profile_of_json.
  destruct (get json "items") as [e0 | items] eqn:Hitems.
  - simpl. intros [= <-]. left. by apply get_throws.
  - unfold js_and at 2. simpl.
    destruct (truthy items) eqn:Ti; simpl.
    + destruct (get_truthy items "length" Ti) as [len ->].
      destruct (get_truthy items "0" Ti) as [first ->].
      unfold js_and. simpl.
      assert (Hrest : forall y,
                 (if truthy y
                  then
                    let* id := get y "id" in
                    let* snippet := get y "snippet" in
                    let* title := get snippet "title" in
                    inr (<["displayName" := title]>
                           (<["id" := id]> ({[ "provider" := JStr "youtube" ]}
                                            : gmap string jsval)))
                  else inr {[ "provider" := JStr "youtube" ]})
                 = inl e ->
                 exists snippet,
                   (snippet = JUndefined \/ snippet = JNull)
                   /\ e = TypeError_read snippet "title").
      { intros y. destruct (truthy y) eqn:Ty; [| discriminate].
        destruct (get_truthy y "id" Ty) as [id ->].
        destruct (get_truthy y "snippet" Ty) as [snippet ->]. simpl.
        destruct (get snippet "title") as [e1 | title] eqn:Ht; [| discriminate].
        simpl. intros [= <-]. exists snippet. by apply get_throws. }
      destruct (truthy len); simpl; intros H; right.
      * apply (Hrest first).
        destruct (truthy first); simpl in *; [| discriminate].
        destruct (get first "id"); simpl in *; [exact H |].
        destruct (get first "snippet"); simpl in *; [exact H |].
        destruct (get _ "title"); simpl in *; [exact H | discriminate].
      * apply (Hrest len).
        destruct (truthy len); simpl in *; [| discriminate].
        destruct (get len "id"); simpl in *; [exact H |].
        destruct (get len "snippet"); simpl in *; [exact H |].
        destruct (get _ "title"); simpl in *; [exact H | discriminate].
    + rewrite Ti. simpl. rewrite Ti. discriminate.
Qed.

(** Whatever the response, a profile that is built has the provider
    name. *)
Lemma profile_of_json_provider (body : string) (json : jsval)
    (profile : gmap string jsval) :
  profile_of_json body json = inr profile ->
  profile !! "provider" = Some (JStr "youtube").
Proof.
  unfold profile_of_json.
  match goal with |- context [js_bind ?m _] => destruct m as [e | y] end;
    simpl; [discriminate |].
  destruct (truthy y); simpl.
  - destruct (get y "id") as [e | id]; simpl; [discriminate |].
    destruct (get y "snippet") as [e | sn]; simpl; [discriminate |].
    destruct (get sn "title") as [e | t]; simpl; [discriminate |].
    intros [= <-]. by rewrite !lookup_insert_ne.
  - intros [= <-]. by rewrite !lookup_insert_ne.
Qed.

Section ProfileOfBody.

Variable JSON_parse : string -> js jsval.

Lemma profile_of_body_syntax (body : string) (e : exn) :
  JSON_parse body = inl e -> profile_of_body JSON_parse body = inl e.
Proof. intros H. unfold profile_of_body. rewrite H. reflexivity. Qed.

Lemma profile_of_body_json (body : string) (json : jsval) :
  JSON_parse body = inr json ->
  profile_of_body JSON_parse body = profile_of_json body json.
Proof. intros H. unfold profile_of_body. rewrite H. reflexivity. Qed.

Lemma profile_of_body_provider (body : string) (profile : gmap string jsval) :
  profile_of_body JSON_parse body = inr profile ->
  profile !! "provider" = Some (JStr "youtube").
Proof.
  unfold profile_of_body.
  destruct (JSON_parse body) as [e | json]; simpl; [discriminate |].
  apply profile_of_json_provider.
Qed.

End ProfileOfBody.

(** ** Runs of the response callback *)

Section Runs.

Variable JSON_parse : string -> js jsval.
Variable done : completion -> option exn.

Lemma on_response_error (err : jsval) (body : string) :
  truthy err = true ->
  on_response JSON_parse done err body
  = let c := done_error (InternalOAuthError "failed to fetch user profile" err) in
    Run [c] (done c).
Proof. intros H. unfold on_response. rewrite H. reflexivity. Qed.

Lemma on_response_caught (err : jsval) (body : string) (e : exn) :
  truthy err = false ->
  profile_of_body JSON_parse body = inl e ->
  on_response JSON_parse done err body
  = let c := done_error (Caught e) in Run [c] (done c).
Proof. intros H Hb. unfold on_response. rewrite H, Hb. reflexivity. Qed.

Lemma on_response_profile (err : jsval) (body : string) (profile : gmap string jsval) :
  truthy err = false ->
  profile_of_body JSON_parse body = inr profile ->
  completes_with done (on_response JSON_parse done err body) (done_profile profile).
Proof.
  intros H Hb. unfold on_response, completes_with. rewrite H, Hb.
  destruct (done (done_profile profile)); simpl; split; congruence.
Qed.

Lemma completes_with_single (c : completion) :
  completes_with done (Run [c] (done c)) c.
Proof. split; [reflexivity | by intros ->]. Qed.

(** Every profile handed to [done] is one [profile_of_body] built. *)
Lemma on_response_profiles (err : jsval) (body : string) (profile : gmap string jsval) :
  done_profile profile ∈ calls (on_response JSON_parse done err body) ->
  truthy err = false /\ profile_of_body JSON_parse body = inr profile.
Proof.
  unfold on_response. destruct (truthy err); simpl.
  - intros H. apply list_elem_of_singleton in H. discriminate.
  - destruct (profile_of_body JSON_parse body) as [e | p]; simpl.
    + intros H. apply list_elem_of_singleton in H. discriminate.
    + destruct (done (done_profile p)); simpl; intros H.
      * apply elem_of_cons in H as [H | H]; [by simplify_eq |].
        apply list_elem_of_singleton in H. discriminate.
      * apply list_elem_of_singleton in H. by simplify_eq.
Qed.

End Runs.

(** ** Properties of [userProfile] *)

Section FetchProfile.

Variable JSON_parse : string -> js jsval.
Variable getProtectedResource : jsval -> string -> jsval * string.
Variable done : completion -> option exn.

Lemma userProfile_on_response (σ : heap) (this : loc) (accessToken : string)
    (err : jsval) (body : string) :
  getProtectedResource (get_field σ this "_profileURL") accessToken = (err, body) ->
  userProfile JSON_parse getProtectedResource done σ this accessToken
  = on_response JSON_parse done err body.
Proof. intros H. unfold userProfile. rewrite H. reflexivity. Qed.

End FetchProfile.

(** C1, as amended.  When the response body parses as JSON, its item list
    is present and non-empty, and the first item is an object whose
    [snippet] member is present and not null, the fetch completes with the
    profile whose provider is ['youtube'], whose [id] is the first item's
    [id] property, whose [displayName] is the [title] property of that
    snippet, whose [_raw] is the body and whose [_json] is the parsed
    value. *)
Theorem fetchProfile_first_item
    (JSON_parse : string -> js jsval)
    (getProtectedResource : jsval -> string -> jsval * string)
    (done : completion -> option exn)
    (σ : heap) (this : loc) (accessToken : string)
    (err : jsval) (body : string) (json : jsval)
    (item : gmap string jsval) (rest : list jsval) (snippet : jsval) :
  getProtectedResource (get_field σ this "_profileURL") accessToken = (err, body) ->
  truthy err = false ->
  JSON_parse body = inr json ->
  member json "items" = Some (JArr (JObj item :: rest)) ->
  item !! "snippet" = Some snippet ->
  snippet <> JUndefined ->
  snippet <> JNull ->
  exists title,
    get snippet "title" = inr title /\
    completes_with done
      (userProfile JSON_parse getProtectedResource done σ this accessToken)
      (done_profile (Profile (obj_get item "id") title body json)).
Proof.
  intros Hf He Hp Hi Hs Hu Hn.
  destruct (get_defined snippet "title" Hu Hn) as [title Ht].
  exists title. split; [exact Ht |].
  rewrite (userProfile_on_response _ _ _ _ _ _ _ _ Hf).
  apply on_response_profile; [exact He |].
  rewrite (profile_of_body_json _ _ _ Hp). by eapply profile_of_json_item.
Qed.

(** The body of the specification's example. *)
Lemma fetchProfile_first_item_example :
  exists title,
    get (JObj {[ "title" := JStr "My Channel" ]}) "title" = inr title /\
    completes_with done_returns
      (userProfile read_json
         (fetch_body (quoted "{'items':[{'id':'abc','snippet':{'title':'My Channel'}}]}"))
         done_returns strategy_store 0 "token")
      (done_profile
         (Profile (obj_get {[ "id" := JStr "abc";
                              "snippet" := JObj {[ "title" := JStr "My Channel" ]} ]} "id")
                  title
                  (quoted "{'items':[{'id':'abc','snippet':{'title':'My Channel'}}]}")
                  (JObj {[ "items" :=
                     JArr [JObj {[ "id" := JStr "abc";
                                   "snippet" := JObj {[ "title" := JStr "My Channel" ]} ]}] ]}))).
Proof.
  apply (fetchProfile_first_item read_json _ done_returns strategy_store 0 "token"
           JNull _ _ _ [] (JObj {[ "title" := JStr "My Channel" ]}));
    [reflexivity | reflexivity | vm_compute; reflexivity | reflexivity
    | reflexivity | discriminate | discriminate].
Defined.

(** C1 as stated fails: a non-empty item list whose first item has no
    snippet ends in an error, not in a profile. *)
Lemma fetchProfile_item_without_snippet :
  let body := quoted "{'items':[{'id':'abc'}]}" in
  let r := userProfile read_json (fetch_body body) done_returns strategy_store 0 "token" in
  read_json body = inr (JObj {[ "items" := JArr [JObj {[ "id" := JStr "abc" ]}] ]})
  /\ r = Run [done_error (Caught (TypeError_read JUndefined "title"))] None
  /\ forall profile, ~ completes_with done_returns r (done_profile profile).
Proof.
  assert (Hr : userProfile read_json
                 (fetch_body (quoted "{'items':[{'id':'abc'}]}"))
                 done_returns strategy_store 0 "token"
               = Run [done_error (Caught (TypeError_read JUndefined "title"))] None)
    by (vm_compute; reflexivity).
  cbv zeta. rewrite Hr. split; [vm_compute; reflexivity |]. split; [reflexivity |].
  intros profile [H _]. discriminate H.
Qed.

(** C2.  When the protected-resource fetch reports an error, the fetch
    completes with an [InternalOAuthError] that wraps that error, in a
    single call of [done], and no profile is handed over. *)
Theorem fetchProfile_transport_error
    (JSON_parse : string -> js jsval)
    (getProtectedResource : jsval -> string -> jsval * string)
    (done : completion -> option exn)
    (σ : heap) (this : loc) (accessToken : string)
    (err : jsval) (body : string) :
  getProtectedResource (get_field σ this "_profileURL") accessToken = (err, body) ->
  truthy err = true ->
  let r := userProfile JSON_parse getProtectedResource done σ this accessToken in
  let c := done_error (InternalOAuthError "failed to fetch user profile" err) in
  completes_with done r c
  /\ calls r = [c]
  /\ forall profile, done_profile profile ∉ calls r.
Proof.
  intros Hf He r c. subst r.
  rewrite (userProfile_on_response _ _ _ _ _ _ _ _ Hf).
  rewrite (on_response_error _ _ _ _ He). cbv zeta.
  split; [apply completes_with_single |]. split; [reflexivity |].
  intros profile H. apply list_elem_of_singleton in H. discriminate.
Qed.

Lemma fetchProfile_transport_error_example :
  let err := JObj {[ "statusCode" := JNum (S754_finite false 401 0) ]} in
  let r := userProfile read_json (fetch_error err) done_returns strategy_store 0 "token" in
  let c := done_error (InternalOAuthError "failed to fetch user profile" err) in
  completes_with done_returns r c
  /\ calls r = [c]
  /\ forall profile, done_profile profile ∉ calls r.
Proof.
  apply (fetchProfile_transport_error read_json _ done_returns strategy_store 0 "token"
           (JObj {[ "statusCode" := JNum (S754_finite false 401 0) ]}) "");
    reflexivity.
Defined.

(** C3.  When the body is not valid JSON, or an exception is raised while
    the expected fields are read (as when the first item of a non-empty
    item list has no snippet), the fetch completes with that very
    exception, in a single call of [done], and no profile is handed
    over. *)
Theorem fetchProfile_parse_error
    (JSON_parse : string -> js jsval)
    (getProtectedResource : jsval -> string -> jsval * string)
    (done : completion -> option exn)
    (σ : heap) (this : loc) (accessToken : string)
    (err : jsval) (body : string) (e : exn) :
  getProtectedResource (get_field σ this "_profileURL") accessToken = (err, body) ->
  truthy err = false ->
  JSON_parse body = inl e
  \/ (exists json,
        JSON_parse body = inr json /\ profile_of_json body json = inl e)
  \/ (exists json item rest,
        JSON_parse body = inr json
        /\ member json "items" = Some (JArr (JObj item :: rest))
        /\ item !! "snippet" = None
        /\ e = TypeError_read JUndefined "title") ->
  let r := userProfile JSON_parse getProtectedResource done σ this accessToken in
  completes_with done r (done_error (Caught e))
  /\ calls r = [done_error (Caught e)]
  /\ forall profile, done_profile profile ∉ calls r.
Proof.
  intros Hf He Hcase r. subst r.
  rewrite (userProfile_on_response _ _ _ _ _ _ _ _ Hf).
  assert (Hb : profile_of_body JSON_parse body = inl e).
  { destruct Hcase as [Hs | [(json & Hp & Hb) | (json & item & rest & Hp & Hi & Hs & ->)]].
    - by apply profile_of_body_syntax.
    - by rewrite (profile_of_body_json _ _ _ Hp).
    - rewrite (profile_of_body_json _ _ _ Hp). by eapply profile_of_json_no_snippet. }
  rewrite (on_response_caught _ _ _ _ _ He Hb). cbv zeta.
  split; [apply completes_with_single |]. split; [reflexivity |].
  intros profile H. apply list_elem_of_singleton in H. discriminate.
Qed.

(** The unparseable body of the specification's example. *)
Lemma fetchProfile_parse_error_example :
  let r := userProfile read_json (fetch_body "not json") done_returns strategy_store 0 "token" in
  let e := SyntaxError "Unexpected token" in
  completes_with done_returns r (done_error (Caught e))
  /\ calls r = [done_error (Caught e)]
  /\ forall profile, done_profile profile ∉ calls r.
Proof.
  apply (fetchProfile_parse_error read_json _ done_returns strategy_store 0 "token"
           JNull "not json" (SyntaxError "Unexpected token"));
    [reflexivity | reflexivity | left; reflexivity].
Defined.

(** C4, as amended.  When the response body parses as JSON to a value
    other than [null] (and [JSON.parse] yields no [undefined]), and the
    item list is absent or empty, the fetch completes with a profile, not
    with an error: [provider], [_raw] and [_json] are set, [id] and
    [displayName] are not. *)
Theorem fetchProfile_no_items
    (JSON_parse : string -> js jsval)
    (getProtectedResource : jsval -> string -> jsval * string)
    (done : completion -> option exn)
    (σ : heap) (this : loc) (accessToken : string)
    (err : jsval) (body : string) (json : jsval) :
  getProtectedResource (get_field σ this "_profileURL") accessToken = (err, body) ->
  truthy err = false ->
  JSON_parse body = inr json ->
  json <> JUndefined ->
  json <> JNull ->
  member json "items" = None \/ member json "items" = Some (JArr []) ->
  exists profile,
    completes_with done
      (userProfile JSON_parse getProtectedResource done σ this accessToken)
      (done_profile profile)
    /\ profile !! "provider" = Some (JStr "youtube")
    /\ profile !! "_raw" = Some (JStr body)
    /\ profile !! "_json" = Some json
    /\ profile !! "id" = None
    /\ profile !! "displayName" = None
    /\ profile = empty_Profile body json.
Proof.
  intros Hf He Hp Hu Hn Hi.
  exists (empty_Profile body json). split.
  - rewrite (userProfile_on_response _ _ _ _ _ _ _ _ Hf).
    apply on_response_profile; [exact He |].
    rewrite (profile_of_body_json _ _ _ Hp). by apply profile_of_json_empty.
  - repeat split; reflexivity.
Qed.

(** The empty item list of the specification's example. *)
Lemma fetchProfile_no_items_example :
  exists profile,
    completes_with done_returns
      (userProfile read_json (fetch_body (quoted "{'items':[]}"))
         done_returns strategy_store 0 "token")
      (done_profile profile)
    /\ profile !! "provider" = Some (JStr "youtube")
    /\ profile !! "_raw" = Some (JStr (quoted "{'items':[]}"))
    /\ profile !! "_json" = Some (JObj {[ "items" := JArr [] ]})
    /\ profile !! "id" = None
    /\ profile !! "displayName" = None
    /\ profile = empty_Profile (quoted "{'items':[]}") (JObj {[ "items" := JArr [] ]}).
Proof.
  apply (fetchProfile_no_items read_json _ done_returns strategy_store 0 "token" JNull);
    [reflexivity | reflexivity | vm_compute; reflexivity | discriminate | discriminate
    | right; reflexivity].
Defined.

(** C4 as stated fails: the body [null] parses as JSON and has no item
    list, yet the fetch ends in an error, the [TypeError] of reading
    [items] from [null]. *)
Lemma fetchProfile_null_body :
  let r := userProfile read_json (fetch_body "null") done_returns strategy_store 0 "token" in
  read_json "null" = inr JNull
  /\ member JNull "items" = None
  /\ r = Run [done_error (Caught (TypeError_read JNull "items"))] None
  /\ forall profile, ~ completes_with done_returns r (done_profile profile).
Proof.
  cbv zeta. split; [reflexivity |]. split; [reflexivity |]. split; [reflexivity |].
  intros profile [H _]. discriminate H.
Qed.

(** C9.  Every profile the fetch hands to [done] has the provider
    ['youtube'], whatever the response. *)
Theorem fetchProfile_provider
    (JSON_parse : string -> js jsval)
    (getProtectedResource : jsval -> string -> jsval * string)
    (done : completion -> option exn)
    (σ : heap) (this : loc) (accessToken : string)
    (profile : gmap string jsval) :
  done_profile profile
    ∈ calls (userProfile JSON_parse getProtectedResource done σ this accessToken) ->
  profile !! "provider" = Some (JStr "youtube").
Proof.
  unfold userProfile.
  destruct (getProtectedResource _ accessToken) as [err body].
  intros H. apply on_response_profiles in H as [_ H].
  by eapply profile_of_body_provider.
Qed.

(** A response with a provider member of its own does not change it. *)
Lemma fetchProfile_provider_example :
  done_profile (empty_Profile (quoted "{'provider':'other'}")
                  (JObj {[ "provider" := JStr "other" ]}))
    ∈ calls (userProfile read_json (fetch_body (quoted "{'provider':'other'}"))
               done_throws strategy_store 0 "token")
  /\ empty_Profile (quoted "{'provider':'other'}") (JObj {[ "provider" := JStr "other" ]})
       !! "provider" = Some (JStr "youtube").
Proof.
  assert (H : done_profile (empty_Profile (quoted "{'provider':'other'}")
                              (JObj {[ "provider" := JStr "other" ]}))
                ∈ calls (userProfile read_json (fetch_body (quoted "{'provider':'other'}"))
                           done_throws strategy_store 0 "token")).
  { vm_compute. apply list_elem_of_here. }
  split; [exact H |].
  exact (fetchProfile_provider read_json _ done_throws strategy_store 0 "token" _ H).
Defined.

(** ** Properties of [authorizationParams] *)

Lemma lookup_set_if (c : jsval) (k : string) (v : jsval)
    (params : gmap string jsval) (q : string) :
  set_if c k v params !! q
  = if bool_decide (k = q) && truthy c then Some v else params !! q.
Proof.
  unfold set_if. destruct (truthy c); case_bool_decide; simpl; try reflexivity.
  - subst. apply lookup_insert_eq.
  - by apply lookup_insert_ne.
Qed.

(** An option reads as a truthy value exactly when it is set to one: none
    of the option names is defined by [Object.prototype]. *)
Lemma option_truthy (options : gmap string jsval) (k : string) :
  k ∈ recognized_options ->
  truthy (obj_get options k) = true ->
  exists v, options !! k = Some v /\ obj_get options k = v /\ truthy v = true.
Proof.
  intros Hk Ht. unfold obj_get in *. destruct (options !! k) as [v |]; [eauto |].
  rewrite truthy_inherited in Ht. apply bool_decide_eq_true_1 in Ht.
  exfalso. revert Hk Ht. rewrite !list_elem_of_In. simpl.
  intuition (subst; discriminate).
Qed.

(** The entry of the parameter map under each key. *)
Lemma lookup_authorizationParams (options : gmap string jsval) (q : string) :
  authorizationParams options !! q
  = let pick v := if truthy v then Some v else None in
    if decide (q = "openid.realm") then pick (obj_get options "openIDRealm")
    else if decide (q = "request_visible_actions")
      then pick (obj_get options "requestVisibleActions")
    else if decide (q = "display") then pick (obj_get options "display")
    else if decide (q = "hd")
      then pick (js_or (obj_get options "hostedDomain") (obj_get options "hd"))
    else if decide (q = "user_id") then pick (obj_get options "userID")
    else if decide (q = "login_hint") then pick (obj_get options "loginHint")
    else if decide (q = "prompt") then pick (obj_get options "prompt")
    else if decide (q = "approval_prompt") then pick (obj_get options "approvalPrompt")
    else if decide (q = "access_type") then pick (obj_get options "accessType")
    else None.
Proof.
  unfold authorizationParams. cbv zeta. rewrite !lookup_set_if, lookup_empty.
  repeat (case_decide; [subst q; reflexivity |]).
  rewrite !bool_decide_eq_false_2 by congruence. reflexivity.
Qed.

Lemma param_key_hd (k : string) :
  k ∈ recognized_options -> param_key k = "hd" -> k = "hostedDomain" \/ k = "hd".
Proof.
  rewrite list_elem_of_In. simpl.
  intuition (subst; try discriminate; auto).
Qed.

(** What a set, truthy, recognized option puts into the map. *)
Lemma authorizationParams_entry (options : gmap string jsval) (k : string) (v : jsval) :
  k ∈ recognized_options ->
  options !! k = Some v ->
  truthy v = true ->
  authorizationParams options !! param_key k
  = if decide (k = "hd")
    then Some (js_or (obj_get options "hostedDomain") v)
    else Some v.
Proof.
  intros Hk Hv Ht. rewrite lookup_authorizationParams. cbv zeta.
  apply list_elem_of_In in Hk. simpl in Hk.
  destruct Hk as [<- | [<- | [<- | [<- | [<- | [<- | [<- | [<- | [<- | [<- | []]]]]]]]]]];
    simpl; rewrite ?(obj_get_Some _ _ _ Hv); unfold js_or; rewrite ?Ht;
    try reflexivity.
  destruct (truthy (obj_get options "hostedDomain")) eqn:Hh; rewrite ?Hh, ?Ht; reflexivity.
Qed.

(** The documented keys differ from option to option, the two names of
    the hosted domain apart. *)
Lemma param_key_inj (k k' : string) :
  k ∈ recognized_options -> k' ∈ recognized_options ->
  param_key k = param_key k' ->
  k = k' \/ (k = "hostedDomain" /\ k' = "hd") \/ (k = "hd" /\ k' = "hostedDomain").
Proof.
  assert (H : Forall (fun a => Forall (fun b =>
                 param_key a = param_key b ->
                 a = b \/ (a = "hostedDomain" /\ b = "hd")
                 \/ (a = "hd" /\ b = "hostedDomain")) recognized_options)
                recognized_options) by compute_done.
  intros Hk Hk'.
  rewrite Forall_forall in H. specialize (H k Hk).
  rewrite Forall_forall in H. exact (H k' Hk').
Qed.

(** The image of a finite set under a function that is injective on it
    has the size of the set. *)
Lemma size_set_map_inj (f : string -> string) (X : gset string) :
  (forall x y, x ∈ X -> y ∈ X -> f x = f y -> x = y) ->
  size (set_map f X : gset string) = size X.
Proof.
  induction X as [| x X Hx IH] using set_ind_L; intros Hinj.
  - by rewrite set_map_empty.
  - rewrite set_map_union_L, set_map_singleton_L.
    rewrite !size_union, !size_singleton.
    + rewrite IH; [done |]. intros y z Hy Hz. apply Hinj; set_solver.
    + set_solver.
    + apply disjoint_singleton_l. intros Hin.
      apply elem_of_map in Hin as (y & Hfy & Hy).
      assert (x = y) by (apply Hinj; set_solver). set_solver.
Qed.

(** C5.  When every set option is a recognized one and truthy, the
    parameter map has its entries exactly under the documented keys of the
    set options, each entry carries the value of its option, nothing else
    is in the map, and there are as many entries as set options; for no
    options at all the map is empty.  [hostedDomain] and [hd] are the two
    names of one option: set together they share the one entry [hd], which
    then carries the value of [hostedDomain]. *)
Theorem authorizationParams_recognized (options : gmap string jsval) :
  (forall k v, options !! k = Some v -> k ∈ recognized_options /\ truthy v = true) ->
  dom (authorizationParams options) = set_map param_key (dom options)
  /\ (forall k v,
        options !! k = Some v ->
        (k = "hd" -> options !! "hostedDomain" = None) ->
        authorizationParams options !! param_key k = Some v)
  /\ (forall q v,
        authorizationParams options !! q = Some v ->
        exists k, options !! k = Some v /\ param_key k = q)
  /\ (options !! "hostedDomain" = None \/ options !! "hd" = None ->
      size (authorizationParams options) = size options)
  /\ (options = ∅ -> authorizationParams options = ∅).
Proof.
  intros Hall.
  assert (Hentry : forall k v,
             options !! k = Some v ->
             (k = "hd" -> options !! "hostedDomain" = None) ->
             authorizationParams options !! param_key k = Some v).
  { intros k v Hv Hhd. destruct (Hall k v Hv) as [Hk Ht].
    rewrite (authorizationParams_entry _ _ _ Hk Hv Ht).
    case_decide as Hd; [| reflexivity].
    rewrite (obj_get_None _ _ (Hhd Hd)). reflexivity. }
  assert (Hback : forall q v,
             authorizationParams options !! q = Some v ->
             exists k, options !! k = Some v /\ param_key k = q).
  { intros q v. rewrite lookup_authorizationParams. cbv zeta.
    assert (Hpick : forall k,
               k ∈ recognized_options ->
               (if truthy (obj_get options k) then Some (obj_get options k) else None)
               = Some v ->
               options !! k = Some v).
    { intros k Hk. destruct (truthy (obj_get options k)) eqn:Ht; [| discriminate].
      destruct (option_truthy _ _ Hk Ht) as (w & Hw & Hg & _).
      rewrite Hg. by intros [= <-]. }
    repeat (case_decide;
            [subst q;
             try (intros Hgot; eexists; split;
                  [apply Hpick; [| exact Hgot]; compute_done | reflexivity]) |]);
      [| discriminate].
    unfold js_or.
    destruct (truthy (obj_get options "hostedDomain")) eqn:Hh.
    - rewrite Hh. intros [= <-].
      destruct (option_truthy options "hostedDomain") as (w & Hw & Hg & _);
        [compute_done | exact Hh |].
      exists "hostedDomain". by rewrite Hg.
    - intros Hgot. exists "hd". split; [| reflexivity].
      apply Hpick; [compute_done | exact Hgot]. }
  assert (Hdom : dom (authorizationParams options) = set_map param_key (dom options)).
  { apply set_eq. intros q. rewrite elem_of_dom, elem_of_map. split.
    - intros [v Hv]. destruct (Hback q v Hv) as (k & Hk & <-).
      exists k. split; [reflexivity |]. apply elem_of_dom. eauto.
    - intros (k & -> & Hk). apply elem_of_dom in Hk as [v Hv].
      destruct (Hall k v Hv) as [Hr Ht].
      rewrite (authorizationParams_entry _ _ _ Hr Hv Ht). case_decide; eauto. }
  split; [exact Hdom |]. split; [exact Hentry |]. split; [exact Hback |]. split.
  - intros Hone.
    rewrite <- (size_dom (D := gset string) (authorizationParams options)), Hdom.
    rewrite <- (size_dom (D := gset string) options).
    apply size_set_map_inj. intros k k' Hk Hk' Heq.
    apply elem_of_dom in Hk as [v Hv]. apply elem_of_dom in Hk' as [v' Hv'].
    destruct (param_key_inj k k' (proj1 (Hall _ _ Hv)) (proj1 (Hall _ _ Hv')) Heq)
      as [? | [[-> ->] | [-> ->]]]; [done | |]; destruct Hone; congruence.
  - intros ->. reflexivity.
Qed.

Lemma authorizationParams_recognized_example :
  dom (authorizationParams three_options) = set_map param_key (dom three_options)
  /\ (forall k v,
        three_options !! k = Some v ->
        (k = "hd" -> three_options !! "hostedDomain" = None) ->
        authorizationParams three_options !! param_key k = Some v)
  /\ (forall q v,
        authorizationParams three_options !! q = Some v ->
        exists k, three_options !! k = Some v /\ param_key k = q)
  /\ (three_options !! "hostedDomain" = None \/ three_options !! "hd" = None ->
      size (authorizationParams three_options) = size three_options)
  /\ (three_options = ∅ -> authorizationParams three_options = ∅).
Proof.
  apply (authorizationParams_recognized three_options).
  apply (bool_decide_unpack
           (map_Forall (fun k v => k ∈ recognized_options /\ truthy v = true)
                       three_options)).
  vm_compute. reflexivity.
Defined.

Example authorizationParams_three_options :
  authorizationParams three_options
  = {[ "access_type" := JStr "offline";
       "login_hint" := JStr "someone@example.com";
       "openid.realm" := JStr "https://example.com/" ]}.
Proof. vm_compute. reflexivity. Qed.

Example authorizationParams_empty : authorizationParams ∅ = ∅.
Proof. reflexivity. Qed.

(** C6, as amended.  When both [hostedDomain] and [hd] are supplied and
    [hostedDomain] is truthy, the [hd] entry of the parameter map is the
    value of [hostedDomain]. *)
Theorem authorizationParams_hostedDomain
    (options : gmap string jsval) (hostedDomain hd : jsval) :
  options !! "hostedDomain" = Some hostedDomain ->
  options !! "hd" = Some hd ->
  truthy hostedDomain = true ->
  authorizationParams options !! "hd" = Some hostedDomain.
Proof.
  intros Hh _ Ht. rewrite lookup_authorizationParams. cbv zeta. simpl.
  rewrite (obj_get_Some _ _ _ Hh). unfold js_or. by rewrite !Ht.
Qed.

Lemma authorizationParams_hostedDomain_example :
  authorizationParams both_domains !! "hd" = Some (JStr "example.com").
Proof.
  apply (authorizationParams_hostedDomain both_domains (JStr "example.com")
           (JStr "example.org")); reflexivity.
Defined.

(** C6 as stated fails: an empty [hostedDomain] supplied next to [hd]
    leaves the value of [hd] in the [hd] entry. *)
Lemma authorizationParams_empty_hostedDomain :
  empty_hostedDomain !! "hostedDomain" = Some (JStr "")
  /\ empty_hostedDomain !! "hd" = Some (JStr "example.org")
  /\ authorizationParams empty_hostedDomain !! "hd" = Some (JStr "example.org")
  /\ authorizationParams empty_hostedDomain !! "hd"
     <> empty_hostedDomain !! "hostedDomain".
Proof.
  assert (H : authorizationParams empty_hostedDomain !! "hd" = Some (JStr "example.org"))
    by (vm_compute; reflexivity).
  split; [reflexivity |]. split; [reflexivity |]. split; [exact H |].
  rewrite H. discriminate.
Qed.

(** ** Properties of [_convertProfileFields] *)

(** What one requested name adds: its provider fields, as long as the
    name is not one that [Object.prototype] defines. *)
Lemma each_field_provider_fields (fields : list jsval) (f : string) :
  f ∉ Object_prototype ->
  each_field fields f = fields ++ (JStr <$> provider_fields f).
Proof.
  intros Hf. unfold each_field, map, provider_fields.
  repeat (case_decide; [subst f; reflexivity |]).
  rewrite obj_get_None.
  - rewrite (inherited_undefined _ Hf). simpl. by rewrite app_nil_r.
  - rewrite !lookup_insert_ne by congruence. by apply lookup_singleton_ne.
Qed.

Lemma each_field_unrecognized (fields : list jsval) (f : string) :
  f ∉ recognized_fields -> f ∉ Object_prototype -> each_field fields f = fields.
Proof.
  intros Hr Hf. rewrite (each_field_provider_fields _ _ Hf).
  unfold provider_fields.
  repeat (case_decide; [subst f; exfalso; apply Hr; compute_done |]).
  apply app_nil_r.
Qed.

(** A name that [Object.prototype] defines adds the inherited object. *)
Lemma each_field_inherited (fields : list jsval) (f : string) :
  f ∈ Object_prototype -> each_field fields f = fields ++ [JHost f].
Proof.
  intros Hf. unfold each_field, map.
  rewrite obj_get_None.
  - by rewrite (inherited_host _ Hf).
  - apply list_elem_of_In in Hf. simpl in Hf.
    repeat (destruct Hf as [<- | Hf]; [reflexivity |]). destruct Hf.
Qed.

Lemma fold_each_field (profileFields : list string) (fields : list jsval) :
  Forall (fun f => f ∉ Object_prototype) profileFields ->
  fold_left each_field profileFields fields
  = fields ++ (JStr <$> flat_map provider_fields profileFields).
Proof.
  intros Hall. revert fields.
  induction Hall as [| f fs Hf _ IH]; intros fields; simpl.
  - by rewrite app_nil_r.
  - rewrite IH, (each_field_provider_fields _ _ Hf), fmap_app, app_assoc.
    reflexivity.
Qed.

Lemma join_strings (ToString : jsval -> string) (sep : string) (l : list string) :
  join ToString sep (JStr <$> l) = String.concat sep l.
Proof.
  unfold join. f_equal. induction l as [| s l IH]; [reflexivity |].
  change (s :: List.map (join_element ToString) (JStr <$> l) = s :: l).
  by rewrite IH.
Qed.

(** C7, as amended.  For every sequence of requested names, none of them
    a name that [Object.prototype] defines, the result is the provider
    field names in the order of the request, [id], [username] and
    [displayName] giving [id], [username] and [name], and [name] giving
    [last_name] then [first_name] in place, joined by commas into one
    string. *)
Theorem convertProfileFields_joined
    (ToString : jsval -> string) (profileFields : list string) :
  Forall (fun f => f ∉ Object_prototype) profileFields ->
  _convertProfileFields ToString profileFields
  = JStr (String.concat "," (flat_map provider_fields profileFields)).
Proof.
  intros Hall. unfold _convertProfileFields. cbv zeta.
  rewrite (fold_each_field _ _ Hall). simpl. by rewrite join_strings.
Qed.

(** The request of the specification's example. *)
Lemma convertProfileFields_joined_example :
  _convertProfileFields host_text ["id"; "name"; "username"]
  = JStr (String.concat "," ["id"; "last_name"; "first_name"; "username"]).
Proof.
  apply (convertProfileFields_joined host_text ["id"; "name"; "username"]).
  apply (bool_decide_unpack
           (Forall (fun f => f ∉ Object_prototype) ["id"; "name"; "username"])).
  vm_compute. reflexivity.
Defined.

(** C7 as stated fails: the result is one string, not a sequence of
    names. *)
Lemma convertProfileFields_is_a_string :
  _convertProfileFields host_text ["id"; "name"; "username"]
  = JStr "id,last_name,first_name,username"
  /\ _convertProfileFields host_text ["id"; "name"; "username"]
     <> JArr [JStr "id"; JStr "last_name"; JStr "first_name"; JStr "username"].
Proof.
  assert (H : _convertProfileFields host_text ["id"; "name"; "username"]
              = JStr "id,last_name,first_name,username") by reflexivity.
  split; [exact H |]. rewrite H. discriminate.
Qed.

(** C8, as amended.  A requested name that is neither recognized nor
    defined by [Object.prototype] is dropped: the result is the same with
    and without it, and the name alone gives the empty string. *)
Theorem convertProfileFields_drops
    (ToString : jsval -> string) (f : string) :
  f ∉ recognized_fields ->
  f ∉ Object_prototype ->
  (forall before after,
      _convertProfileFields ToString (before ++ f :: after)
      = _convertProfileFields ToString (before ++ after))
  /\ _convertProfileFields ToString [f] = JStr "".
Proof.
  intros Hr Hf. split.
  - intros before after. unfold _convertProfileFields. cbv zeta.
    rewrite !fold_left_app. simpl.
    by rewrite (each_field_unrecognized _ _ Hr Hf).
  - unfold _convertProfileFields. cbv zeta. simpl.
    by rewrite (each_field_unrecognized _ _ Hr Hf).
Qed.

(** The request of the specification's example. *)
Lemma convertProfileFields_drops_example :
  (forall before after,
      _convertProfileFields host_text (before ++ "bogus" :: after)
      = _convertProfileFields host_text (before ++ after))
  /\ _convertProfileFields host_text ["bogus"] = JStr "".
Proof.
  apply (convertProfileFields_drops host_text "bogus"); compute_done.
Defined.

(** C8 as stated fails: [toString] is outside the recognized set, yet it
    is not dropped, the function every object inherits under that name
    is pushed and its text returned; and what an unrecognized name gives
    is the empty string, not an empty sequence. *)
Lemma convertProfileFields_inherited_name :
  ("toString" ∉ recognized_fields)
  /\ fold_left each_field ["toString"] [] = [JHost "toString"]
  /\ (forall ToString,
        _convertProfileFields ToString ["toString"] = JStr (ToString (JHost "toString")))
  /\ _convertProfileFields host_text ["toString"]
     = JStr "function toString() { [native code] }"
  /\ _convertProfileFields host_text ["bogus"] <> JArr [].
Proof.
  split; [compute_done |]. split; [reflexivity |]. split; [reflexivity |].
  split; [reflexivity |]. discriminate.
Qed.

(** ** Properties of the constructor *)

Lemma lookup_set_field_eq (σ : heap) (l : loc) (k : string) (v : jsval)
    (o : gmap string jsval) :
  σ !! l = Some o -> set_field σ l k v !! l = Some (<[k := v]> o).
Proof. intros H. unfold set_field. by rewrite lookup_alter_eq, H. Qed.

Lemma lookup_set_field_ne (σ : heap) (l l' : loc) (k : string) (v : jsval) :
  l <> l' -> set_field σ l k v !! l' = σ !! l'.
Proof. intros H. unfold set_field. by rewrite lookup_alter_ne. Qed.

Lemma get_field_lookup (σ : heap) (l : loc) (k : string) (o : gmap string jsval) :
  σ !! l = Some o -> get_field σ l k = obj_get o k.
Proof. intros H. unfold get_field. by rewrite H. Qed.

(** The value [options.k || d] for a name [k] that [Object.prototype]
    does not define: the own property when it is there and truthy, and
    [d] when it is absent or falsy. *)
Lemma js_or_own (o : gmap string jsval) (k : string) (d : jsval) :
  k ∉ Object_prototype ->
  js_or (obj_get o k) d
  = match o !! k with
    | Some v => if truthy v then v else d
    | None => d
    end.
Proof.
  intros Hk. unfold js_or, obj_get. destruct (o !! k) as [v |]; [reflexivity |].
  by rewrite (inherited_undefined _ Hk).
Qed.

(** C10.  The constructor writes into the options object its caller
    passes: afterwards that very object holds [authorizationURL],
    [tokenURL] and [scope], each with the value supplied when that value
    is truthy and with the provider's default when the property is absent
    or falsy, and its other properties are as before.  The base
    constructor is assumed to leave the caller's object as it finds it. *)
Theorem Strategy_mutates_options
    (OAuth2Strategy : heap -> loc -> loc -> jsval -> heap * option exn)
    (σ : heap) (this l : loc) (o : gmap string jsval) (verify : jsval) :
  σ !! l = Some o ->
  this <> l ->
  (forall σ0, (OAuth2Strategy σ0 this l verify).1 !! l = σ0 !! l) ->
  exists o',
    (Strategy OAuth2Strategy σ this (Some l) verify).1 !! l = Some o'
    /\ o' !! "authorizationURL"
       = Some (match o !! "authorizationURL" with
               | Some v =>
                   if truthy v then v
                   else JStr "https://accounts.google.com/o/oauth2/auth"
               | None => JStr "https://accounts.google.com/o/oauth2/auth"
               end)
    /\ o' !! "tokenURL"
       = Some (match o !! "tokenURL" with
               | Some v =>
                   if truthy v then v
                   else JStr "https://accounts.google.com/o/oauth2/token"
               | None => JStr "https://accounts.google.com/o/oauth2/token"
               end)
    /\ o' !! "scope"
       = Some (match o !! "scope" with
               | Some v =>
                   if truthy v then v
                   else JArr [JStr "https://www.googleapis.com/auth/youtube.readonly"]
               | None => JArr [JStr "https://www.googleapis.com/auth/youtube.readonly"]
               end)
    /\ forall k,
         k <> "authorizationURL" -> k <> "tokenURL" -> k <> "scope" ->
         o' !! k = o !! k.
Proof.
  intros Ho Hne Hframe. unfold Strategy.
  set (a := js_or (get_field σ l "authorizationURL") _).
  set (σ1 := set_field σ l "authorizationURL" a).
  set (t := js_or (get_field σ1 l "tokenURL") _).
  set (σ2 := set_field σ1 l "tokenURL" t).
  set (s := js_or (get_field σ2 l "scope") _).
  set (σ3 := set_field σ2 l "scope" s).
  assert (H1 : σ1 !! l = Some (<["authorizationURL" := a]> o))
    by (by apply lookup_set_field_eq).
  assert (H2 : σ2 !! l = Some (<["tokenURL" := t]> (<["authorizationURL" := a]> o)))
    by (by apply lookup_set_field_eq).
  assert (H3 : σ3 !! l
               = Some (<["scope" := s]>
                         (<["tokenURL" := t]> (<["authorizationURL" := a]> o))))
    by (by apply lookup_set_field_eq).
  assert (Ha : a = match o !! "authorizationURL" with
                   | Some v =>
                       if truthy v then v
                       else JStr "https://accounts.google.com/o/oauth2/auth"
                   | None => JStr "https://accounts.google.com/o/oauth2/auth"
                   end).
  { subst a. rewrite (get_field_lookup _ _ _ _ Ho).
    apply js_or_own. compute_done. }
  assert (Ht : t = match o !! "tokenURL" with
                   | Some v =>
                       if truthy v then v
                       else JStr "https://accounts.google.com/o/oauth2/token"
                   | None => JStr "https://accounts.google.com/o/oauth2/token"
                   end).
  { subst t. rewrite (get_field_lookup _ _ _ _ H1).
    rewrite <- (js_or_own o "tokenURL") by compute_done.
    unfold obj_get. by rewrite lookup_insert_ne. }
  assert (Hs : s = match o !! "scope" with
                   | Some v =>
                       if truthy v then v
                       else JArr [JStr "https://www.googleapis.com/auth/youtube.readonly"]
                   | None =>
                       JArr [JStr "https://www.googleapis.com/auth/youtube.readonly"]
                   end).
  { subst s. rewrite (get_field_lookup _ _ _ _ H2).
    rewrite <- (js_or_own o "scope") by compute_done.
    unfold obj_get. by rewrite !lookup_insert_ne. }
  exists (<["scope" := s]> (<["tokenURL" := t]> (<["authorizationURL" := a]> o))).
  split.
  - specialize (Hframe σ3).
    destruct (OAuth2Strategy σ3 this l verify) as [σ4 [e |]]; simpl in *.
    + by rewrite Hframe.
    + rewrite !lookup_set_field_ne by done. by rewrite Hframe.
  - rewrite <- Ha, <- Ht, <- Hs.
    split; [rewrite !lookup_insert_ne by done; apply lookup_insert_eq |].
    split; [rewrite lookup_insert_ne by done; apply lookup_insert_eq |].
    split; [apply lookup_insert_eq |].
    intros k Hk1 Hk2 Hk3. by rewrite !lookup_insert_ne.
Qed.

(** A caller whose options have a token URL, an empty scope and no
    authorization URL: the token URL is kept, the two others get the
    defaults, and the client id is as before. *)
Lemma Strategy_mutates_options_example :
  exists o',
    (Strategy base_keeps_verify caller_store 0 (Some 1) (JHost "verify")).1 !! 1 = Some o'
    /\ o' !! "authorizationURL"
       = Some (JStr "https://accounts.google.com/o/oauth2/auth")
    /\ o' !! "tokenURL" = Some (JStr "https://example.com/token")
    /\ o' !! "scope"
       = Some (JArr [JStr "https://www.googleapis.com/auth/youtube.readonly"])
    /\ forall k,
         k <> "authorizationURL" -> k <> "tokenURL" -> k <> "scope" ->
         o' !! k = ({[ "clientID" := JStr "client";
                       "tokenURL" := JStr "https://example.com/token";
                       "scope" := JStr "" ]} : gmap string jsval) !! k.
Proof.
  assert (Ho : caller_store !! 1
               = Some {[ "clientID" := JStr "client";
                         "tokenURL" := JStr "https://example.com/token";
                         "scope" := JStr "" ]}) by reflexivity.
  assert (Hne : 0 <> 1) by discriminate.
  assert (Hframe : forall σ0,
             (base_keeps_verify σ0 0 1 (JHost "verify")).1 !! 1 = σ0 !! 1).
  { intros σ0. unfold base_keeps_verify. simpl. by apply lookup_set_field_ne. }
  exact (Strategy_mutates_options base_keeps_verify caller_store 0 1 _
           (JHost "verify") Ho Hne Hframe).
Defined.

Example Strategy_caller_store :
  (Strategy base_keeps_verify caller_store 0 (Some 1) (JHost "verify")).1 !! 1
  = Some {[ "clientID" := JStr "client";
            "authorizationURL" := JStr "https://accounts.google.com/o/oauth2/auth";
            "tokenURL" := JStr "https://example.com/token";
            "scope" := JArr [JStr "https://www.googleapis.com/auth/youtube.readonly"] ]}.
Proof. vm_compute. reflexivity. Qed.

(** ** Further properties of the constructor *)

Lemma set_field_insert (σ : heap) (l : loc) (k : string) (v : jsval)
    (o : gmap string jsval) :
  σ !! l = Some o -> set_field σ l k v = <[l := <[k := v]> o]> σ.
Proof.
  intros H. apply map_eq. intros i. unfold set_field.
  destruct (decide (l = i)) as [<- | Hne].
  - by rewrite lookup_alter_eq, lookup_insert_eq, H.
  - by rewrite lookup_alter_ne, lookup_insert_ne.
Qed.

Lemma obj_get_insert_ne (o : gmap string jsval) (k k' : string) (v : jsval) :
  k <> k' -> obj_get (<[k := v]> o) k' = obj_get o k'.
Proof. intros H. unfold obj_get. by rewrite lookup_insert_ne. Qed.

Lemma obj_get_with_defaults (o : gmap string jsval) (k : string) :
  k <> "authorizationURL" -> k <> "tokenURL" -> k <> "scope" ->
  obj_get (with_defaults o) k = obj_get o k.
Proof.
  intros H1 H2 H3. unfold with_defaults. by rewrite !obj_get_insert_ne.
Qed.

(** Lines 19 to 24 on an options object: the base constructor runs on the
    store in which that object has its defaults. *)
Lemma Strategy_Some
    (OAuth2Strategy : heap -> loc -> loc -> jsval -> heap * option exn)
    (σ : heap) (this l : loc) (o : gmap string jsval) (verify : jsval) :
  σ !! l = Some o ->
  Strategy OAuth2Strategy σ this (Some l) verify
  = match OAuth2Strategy (<[l := with_defaults o]> σ) this l verify with
    | (σ', Some e) => (σ', Some e)
    | (σ', None) =>
        let σ' := set_field σ' this "name" (JStr "youtube") in
        (set_field σ' this "_profileURL"
           (js_or (get_field σ' l "profileURL")
                  (JStr "https://www.googleapis.com/youtube/v3/channels?part=snippet&mine=true")),
         None)
    end.
Proof.
  intros Ho. unfold Strategy. cbv beta iota zeta.
  rewrite (get_field_lookup _ _ _ _ Ho).
  rewrite (set_field_insert _ _ _ _ _ Ho).
  rewrite (get_field_lookup _ _ "tokenURL" _ (lookup_insert_eq _ _ _)).
  rewrite (set_field_insert _ _ "tokenURL" _ _ (lookup_insert_eq _ _ _)).
  rewrite insert_insert_eq.
  rewrite (get_field_lookup _ _ "scope" _ (lookup_insert_eq _ _ _)).
  rewrite (set_field_insert _ _ "scope" _ _ (lookup_insert_eq _ _ _)).
  rewrite insert_insert_eq.
  rewrite !obj_get_insert_ne by done.
  reflexivity.
Qed.

Lemma get_field_set_field_eq (σ : heap) (l : loc) (k : string) (v : jsval) :
  is_Some (σ !! l) -> get_field (set_field σ l k v) l k = v.
Proof.
  intros [o Ho]. rewrite (set_field_insert _ _ _ _ _ Ho).
  rewrite (get_field_lookup _ _ _ _ (lookup_insert_eq _ _ _)).
  unfold obj_get. by rewrite lookup_insert_eq.
Qed.

Lemma get_field_set_field_ne (σ : heap) (l l' : loc) (k k' : string) (v : jsval) :
  l <> l' \/ k <> k' -> get_field (set_field σ l k v) l' k' = get_field σ l' k'.
Proof.
  intros H. unfold get_field, set_field.
  destruct (decide (l = l')) as [<- | Hne].
  - rewrite lookup_alter_eq. destruct (σ !! l) as [o |]; simpl; [| done].
    destruct H as [H | H]; [done |]. by apply obj_get_insert_ne.
  - by rewrite lookup_alter_ne.
Qed.

Lemma set_field_is_Some (σ : heap) (l l' : loc) (k : string) (v : jsval) :
  is_Some (σ !! l') -> is_Some (set_field σ l k v !! l').
Proof.
  unfold set_field. destruct (decide (l = l')) as [<- | Hne].
  - rewrite lookup_alter_eq. intros [o ->]. by eexists.
  - by rewrite lookup_alter_ne.
Qed.

Lemma truthy_js_or (a d : jsval) : truthy d = true -> truthy (js_or a d) = true.
Proof. intros Hd. unfold js_or. by destruct (truthy a) eqn:Ha. Qed.

Lemma js_or_truthy (a d : jsval) : truthy a = true -> js_or a d = a.
Proof. intros Ha. unfold js_or. by rewrite Ha. Qed.

(** What a successful construction leaves on [this]. *)
Lemma Strategy_this
    (OAuth2Strategy : heap -> loc -> loc -> jsval -> heap * option exn)
    (σ : heap) (this l : loc) (o : gmap string jsval) (verify : jsval) :
  σ !! l = Some o ->
  this <> l ->
  is_Some (σ !! this) ->
  (forall σ0, (OAuth2Strategy σ0 this l verify).1 !! l = σ0 !! l) ->
  (forall σ0, is_Some (σ0 !! this) ->
              is_Some ((OAuth2Strategy σ0 this l verify).1 !! this)) ->
  (Strategy OAuth2Strategy σ this (Some l) verify).2 = None ->
  get_field (Strategy OAuth2Strategy σ this (Some l) verify).1 this "name"
  = JStr "youtube"
  /\ get_field (Strategy OAuth2Strategy σ this (Some l) verify).1 this "_profileURL"
     = js_or (obj_get o "profileURL")
             (JStr "https://www.googleapis.com/youtube/v3/channels?part=snippet&mine=true").
Proof.
  intros Ho Hne Hthis Hframe Hkeep. rewrite (Strategy_Some _ _ _ _ _ _ Ho).
  specialize (Hframe (<[l := with_defaults o]> σ)).
  specialize (Hkeep (<[l := with_defaults o]> σ)).
  destruct (OAuth2Strategy (<[l := with_defaults o]> σ) this l verify) as [σ' [e |]];
    simpl in *; [discriminate |].
  intros _.
  assert (Hthis' : is_Some (σ' !! this)).
  { apply Hkeep. by rewrite lookup_insert_ne. }
  rewrite lookup_insert_eq in Hframe.
  split.
  - rewrite get_field_set_field_ne by (right; done).
    by apply get_field_set_field_eq.
  - rewrite get_field_set_field_eq by (by apply set_field_is_Some).
    rewrite get_field_set_field_ne by (left; done).
    rewrite (get_field_lookup _ _ _ _ Hframe).
    by rewrite obj_get_with_defaults.
Qed.

(** X1.  After a successful construction on an options object, the
    strategy's [name] is ['youtube'] and its [_profileURL] is the
    [profileURL] option when that is truthy, and the channels URL of the
    authenticated user otherwise.  The base constructor is assumed to
    leave the options object alone and to keep [this]. *)
Theorem Strategy_name_and_profileURL
    (OAuth2Strategy : heap -> loc -> loc -> jsval -> heap * option exn)
    (σ : heap) (this l : loc) (o : gmap string jsval) (verify : jsval) :
  σ !! l = Some o ->
  this <> l ->
  is_Some (σ !! this) ->
  (forall σ0, (OAuth2Strategy σ0 this l verify).1 !! l = σ0 !! l) ->
  (forall σ0, is_Some (σ0 !! this) ->
              is_Some ((OAuth2Strategy σ0 this l verify).1 !! this)) ->
  (Strategy OAuth2Strategy σ this (Some l) verify).2 = None ->
  let σ' := (Strategy OAuth2Strategy σ this (Some l) verify).1 in
  get_field σ' this "name" = JStr "youtube"
  /\ get_field σ' this "_profileURL"
     = (if truthy (obj_get o "profileURL") then obj_get o "profileURL"
        else JStr "https://www.googleapis.com/youtube/v3/channels?part=snippet&mine=true").
Proof. intros Ho Hne Hthis Hframe Hkeep Hok. by apply Strategy_this. Qed.

Lemma base_keeps_verify_frame (this l : loc) (verify : jsval) (σ0 : heap) :
  this <> l -> (base_keeps_verify σ0 this l verify).1 !! l = σ0 !! l.
Proof. intros H. unfold base_keeps_verify. simpl. by apply lookup_set_field_ne. Qed.

Lemma base_keeps_verify_this (this l : loc) (verify : jsval) (σ0 : heap) :
  is_Some (σ0 !! this) -> is_Some ((base_keeps_verify σ0 this l verify).1 !! this).
Proof. unfold base_keeps_verify. simpl. apply set_field_is_Some. Qed.

Lemma Strategy_name_and_profileURL_example :
  let σ' := (Strategy base_keeps_verify configured_store 0 (Some 1) (JHost "verify")).1 in
  get_field σ' 0 "name" = JStr "youtube"
  /\ get_field σ' 0 "_profileURL"
     = (if truthy (obj_get {[ "authorizationURL" := JStr "https://example.com/auth";
                              "tokenURL" := JStr "https://example.com/token";
                              "scope" := JArr [JStr "profile"];
                              "profileURL" := JStr "https://example.com/me" ]} "profileURL")
        then obj_get {[ "authorizationURL" := JStr "https://example.com/auth";
                        "tokenURL" := JStr "https://example.com/token";
                        "scope" := JArr [JStr "profile"];
                        "profileURL" := JStr "https://example.com/me" ]} "profileURL"
        else JStr "https://www.googleapis.com/youtube/v3/channels?part=snippet&mine=true").
Proof.
  apply (Strategy_name_and_profileURL base_keeps_verify configured_store 0 1 _
           (JHost "verify")).
  - reflexivity.
  - discriminate.
  - vm_compute. eauto.
  - intros σ0. by apply base_keeps_verify_frame.
  - intros σ0. apply base_keeps_verify_this.
  - vm_compute. reflexivity.
Defined.

Lemma Strategy_options_after
    (OAuth2Strategy : heap -> loc -> loc -> jsval -> heap * option exn)
    (σ : heap) (this l : loc) (o : gmap string jsval) (verify : jsval) :
  σ !! l = Some o ->
  this <> l ->
  (forall σ0, (OAuth2Strategy σ0 this l verify).1 !! l = σ0 !! l) ->
  (Strategy OAuth2Strategy σ this (Some l) verify).1 !! l = Some (with_defaults o).
Proof.
  intros Ho Hne Hframe. rewrite (Strategy_Some _ _ _ _ _ _ Ho).
  specialize (Hframe (<[l := with_defaults o]> σ)).
  rewrite lookup_insert_eq in Hframe.
  destruct (OAuth2Strategy _ this l verify) as [σ' [e |]]; simpl in *; [done |].
  by rewrite !lookup_set_field_ne.
Qed.

Lemma js_or_idem (a d : jsval) : js_or (js_or a d) d = js_or a d.
Proof.
  unfold js_or. destruct (truthy a) eqn:Ha; [by rewrite Ha |].
  by destruct (truthy d).
Qed.

Lemma lookup_with_defaults (o : gmap string jsval) (k : string) :
  with_defaults o !! k
  = if decide (k = "scope")
    then Some (js_or (obj_get o "scope")
                 (JArr [JStr "https://www.googleapis.com/auth/youtube.readonly"]))
    else if decide (k = "tokenURL")
    then Some (js_or (obj_get o "tokenURL")
                 (JStr "https://accounts.google.com/o/oauth2/token"))
    else if decide (k = "authorizationURL")
    then Some (js_or (obj_get o "authorizationURL")
                 (JStr "https://accounts.google.com/o/oauth2/auth"))
    else o !! k.
Proof.
  unfold with_defaults.
  repeat (case_decide; [subst k; by rewrite ?lookup_insert_ne, lookup_insert_eq by done |]).
  by rewrite !lookup_insert_ne.
Qed.

Lemma obj_get_with_defaults_eq (o : gmap string jsval) (k : string) (v : jsval) :
  with_defaults o !! k = Some v -> obj_get (with_defaults o) k = v.
Proof. apply obj_get_Some. Qed.

Lemma with_defaults_idem (o : gmap string jsval) :
  with_defaults (with_defaults o) = with_defaults o.
Proof.
  apply map_eq. intros k. rewrite (lookup_with_defaults (with_defaults o)).
  rewrite (lookup_with_defaults o).
  repeat (case_decide;
          [subst k; f_equal;
           erewrite obj_get_with_defaults_eq
             by (rewrite lookup_with_defaults; reflexivity);
           apply js_or_idem |]).
  reflexivity.
Qed.

Lemma with_defaults_configured (o : gmap string jsval) :
  truthy (obj_get o "authorizationURL") = true ->
  truthy (obj_get o "tokenURL") = true ->
  truthy (obj_get o "scope") = true ->
  with_defaults o = o.
Proof.
  intros Ha Ht Hs.
  assert (Hown : forall k, truthy (obj_get o k) = true ->
                           k ∉ Object_prototype -> o !! k = Some (obj_get o k)).
  { intros k Hk Hp. unfold obj_get in *. destruct (o !! k); [done |].
    rewrite (inherited_undefined _ Hp) in Hk. discriminate. }
  apply map_eq. intros k. rewrite lookup_with_defaults.
  repeat (case_decide;
          [subst k; rewrite js_or_truthy by done; symmetry; apply Hown;
           [done | compute_done] |]).
  reflexivity.
Qed.

(** X2.  The base constructor runs on a store that differs from the
    caller's in the options object only, and in that object only in
    [authorizationURL], [tokenURL] and [scope]: each of the three is the
    value supplied when that is truthy and the default otherwise, and so
    is truthy, and every other property is as the caller set it.  The
    constructor throws exactly what the base constructor throws there, and
    then leaves the store as the base constructor left it, with neither
    [name] nor [_profileURL] written. *)
Theorem Strategy_base_sees_defaults
    (OAuth2Strategy : heap -> loc -> loc -> jsval -> heap * option exn)
    (σ : heap) (this l : loc) (o : gmap string jsval) (verify : jsval) :
  σ !! l = Some o ->
  exists σ0 o0,
    σ0 !! l = Some o0
    /\ o0 !! "authorizationURL"
       = Some (match o !! "authorizationURL" with
               | Some v =>
                   if truthy v then v
                   else JStr "https://accounts.google.com/o/oauth2/auth"
               | None => JStr "https://accounts.google.com/o/oauth2/auth"
               end)
    /\ o0 !! "tokenURL"
       = Some (match o !! "tokenURL" with
               | Some v =>
                   if truthy v then v
                   else JStr "https://accounts.google.com/o/oauth2/token"
               | None => JStr "https://accounts.google.com/o/oauth2/token"
               end)
    /\ o0 !! "scope"
       = Some (match o !! "scope" with
               | Some v =>
                   if truthy v then v
                   else JArr [JStr "https://www.googleapis.com/auth/youtube.readonly"]
               | None => JArr [JStr "https://www.googleapis.com/auth/youtube.readonly"]
               end)
    /\ (forall k,
          k <> "authorizationURL" -> k <> "tokenURL" -> k <> "scope" ->
          o0 !! k = o !! k)
    /\ truthy (get_field σ0 l "authorizationURL") = true
    /\ truthy (get_field σ0 l "tokenURL") = true
    /\ truthy (get_field σ0 l "scope") = true
    /\ (forall l', l' <> l -> σ0 !! l' = σ !! l')
    /\ (Strategy OAuth2Strategy σ this (Some l) verify).2
       = (OAuth2Strategy σ0 this l verify).2
    /\ (forall e,
          (OAuth2Strategy σ0 this l verify).2 = Some e ->
          Strategy OAuth2Strategy σ this (Some l) verify
          = OAuth2Strategy σ0 this l verify).
Proof.
  intros Ho. exists (<[l := with_defaults o]> σ), (with_defaults o).
  rewrite !(get_field_lookup _ _ _ _ (lookup_insert_eq _ _ _)).
  split; [apply lookup_insert_eq |].
  split; [rewrite lookup_with_defaults; simpl; f_equal; apply js_or_own; compute_done |].
  split; [rewrite lookup_with_defaults; simpl; f_equal; apply js_or_own; compute_done |].
  split; [rewrite lookup_with_defaults; simpl; f_equal; apply js_or_own; compute_done |].
  split.
  { intros k H1 H2 H3. rewrite lookup_with_defaults.
    by rewrite !decide_False by done. }
  split; [| split; [| split; [| split; [| split]]]].
  - unfold with_defaults. rewrite !obj_get_insert_ne by done.
    unfold obj_get at 1. rewrite lookup_insert_eq. by apply truthy_js_or.
  - unfold with_defaults. rewrite !obj_get_insert_ne by done.
    unfold obj_get at 1. rewrite lookup_insert_eq. by apply truthy_js_or.
  - unfold with_defaults. unfold obj_get at 1. rewrite lookup_insert_eq.
    by apply truthy_js_or.
  - intros l' Hl'. by rewrite lookup_insert_ne.
  - rewrite (Strategy_Some _ _ _ _ _ _ Ho).
    by destruct (OAuth2Strategy _ this l verify) as [σ' [e |]].
  - intros e. rewrite (Strategy_Some _ _ _ _ _ _ Ho).
    destruct (OAuth2Strategy _ this l verify) as [σ' [e' |]]; simpl; [done | discriminate].
Qed.

(** The caller of the store above, with a base constructor that throws:
    the base constructor sees the token URL supplied, the defaults for
    the two others and the client id. *)
Lemma Strategy_base_sees_defaults_example :
  exists σ0 o0,
    σ0 !! 1 = Some o0
    /\ o0 !! "authorizationURL"
       = Some (JStr "https://accounts.google.com/o/oauth2/auth")
    /\ o0 !! "tokenURL" = Some (JStr "https://example.com/token")
    /\ o0 !! "scope"
       = Some (JArr [JStr "https://www.googleapis.com/auth/youtube.readonly"])
    /\ (forall k,
          k <> "authorizationURL" -> k <> "tokenURL" -> k <> "scope" ->
          o0 !! k = ({[ "clientID" := JStr "client";
                        "tokenURL" := JStr "https://example.com/token";
                        "scope" := JStr "" ]} : gmap string jsval) !! k)
    /\ truthy (get_field σ0 1 "authorizationURL") = true
    /\ truthy (get_field σ0 1 "tokenURL") = true
    /\ truthy (get_field σ0 1 "scope") = true
    /\ (forall l', l' <> 1 -> σ0 !! l' = caller_store !! l')
    /\ (Strategy base_throws caller_store 0 (Some 1) JUndefined).2
       = (base_throws σ0 0 1 JUndefined).2
    /\ (forall e,
          (base_throws σ0 0 1 JUndefined).2 = Some e ->
          Strategy base_throws caller_store 0 (Some 1) JUndefined
          = base_throws σ0 0 1 JUndefined).
Proof.
  assert (Ho : caller_store !! 1
               = Some {[ "clientID" := JStr "client";
                         "tokenURL" := JStr "https://example.com/token";
                         "scope" := JStr "" ]}) by reflexivity.
  exact (Strategy_base_sees_defaults base_throws caller_store 0 1 _ JUndefined Ho).
Defined.

(** X3.  Constructing a second strategy from an options object that a
    first construction has already filled in leaves that object as the
    first construction left it.  The base constructor is assumed to leave
    the options object alone. *)
Theorem Strategy_reuses_options
    (OAuth2Strategy : heap -> loc -> loc -> jsval -> heap * option exn)
    (σ : heap) (this1 this2 l : loc) (o : gmap string jsval) (verify : jsval) :
  σ !! l = Some o ->
  this1 <> l ->
  this2 <> l ->
  (forall σ0 this, this <> l -> (OAuth2Strategy σ0 this l verify).1 !! l = σ0 !! l) ->
  let σ1 := (Strategy OAuth2Strategy σ this1 (Some l) verify).1 in
  let σ2 := (Strategy OAuth2Strategy σ1 this2 (Some l) verify).1 in
  σ2 !! l = σ1 !! l.
Proof.
  intros Ho H1 H2 Hframe σ1 σ2.
  assert (Hσ1 : σ1 !! l = Some (with_defaults o)).
  { apply Strategy_options_after; [done | done |]. intros σ0. by apply Hframe. }
  subst σ2. rewrite (Strategy_options_after _ _ _ _ _ _ Hσ1 H2).
  - by rewrite Hσ1, with_defaults_idem.
  - intros σ0. by apply Hframe.
Qed.

Lemma Strategy_reuses_options_example :
  let σ1 := (Strategy base_keeps_verify caller_store 0 (Some 1) (JHost "verify")).1 in
  let σ2 := (Strategy base_keeps_verify σ1 2 (Some 1) (JHost "verify")).1 in
  σ2 !! 1 = σ1 !! 1.
Proof.
  apply (Strategy_reuses_options base_keeps_verify caller_store 0 2 1
           {[ "clientID" := JStr "client";
              "tokenURL" := JStr "https://example.com/token";
              "scope" := JStr "" ]} (JHost "verify")).
  - reflexivity.
  - discriminate.
  - discriminate.
  - intros σ0 this Hthis. by apply base_keeps_verify_frame.
Defined.

(** X4.  An options object that already has a truthy [authorizationURL],
    [tokenURL] and [scope] is left exactly as it is by the constructor.
    The base constructor is assumed to leave the options object alone. *)
Theorem Strategy_keeps_configured_options
    (OAuth2Strategy : heap -> loc -> loc -> jsval -> heap * option exn)
    (σ : heap) (this l : loc) (o : gmap string jsval) (verify : jsval) :
  σ !! l = Some o ->
  this <> l ->
  (forall σ0, (OAuth2Strategy σ0 this l verify).1 !! l = σ0 !! l) ->
  truthy (obj_get o "authorizationURL") = true ->
  truthy (obj_get o "tokenURL") = true ->
  truthy (obj_get o "scope") = true ->
  (Strategy OAuth2Strategy σ this (Some l) verify).1 !! l = Some o.
Proof.
  intros Ho Hne Hframe Ha Ht Hs.
  rewrite (Strategy_options_after _ _ _ _ _ _ Ho Hne Hframe).
  by rewrite with_defaults_configured.
Qed.

Lemma Strategy_keeps_configured_options_example :
  (Strategy base_keeps_verify configured_store 0 (Some 1) (JHost "verify")).1 !! 1
  = Some {[ "authorizationURL" := JStr "https://example.com/auth";
            "tokenURL" := JStr "https://example.com/token";
            "scope" := JArr [JStr "profile"];
            "profileURL" := JStr "https://example.com/me" ]}.
Proof.
  apply (Strategy_keeps_configured_options base_keeps_verify configured_store 0 1
           _ (JHost "verify")).
  - reflexivity.
  - discriminate.
  - intros σ0. by apply base_keeps_verify_frame.
  - reflexivity.
  - reflexivity.
  - reflexivity.
Defined.

Lemma Strategy_None
    (OAuth2Strategy : heap -> loc -> loc -> jsval -> heap * option exn)
    (σ : heap) (this : loc) (verify : jsval) :
  Strategy OAuth2Strategy σ this None verify
  = Strategy OAuth2Strategy (<[fresh (dom σ) := ∅]> σ) this
      (Some (fresh (dom σ))) verify.
Proof. reflexivity. Qed.

(** X5.  Called without an options object, the constructor makes a new
    object, which then holds exactly the three defaults, and changes no
    object of the caller's store other than [this].  The base constructor
    is assumed to write to [this] only. *)
Theorem Strategy_without_options
    (OAuth2Strategy : heap -> loc -> loc -> jsval -> heap * option exn)
    (σ : heap) (this : loc) (verify : jsval) :
  is_Some (σ !! this) ->
  (forall σ0 l0 l', l' <> this -> (OAuth2Strategy σ0 this l0 verify).1 !! l' = σ0 !! l') ->
  let σ' := (Strategy OAuth2Strategy σ this None verify).1 in
  let l := fresh (dom σ) in
  σ !! l = None
  /\ σ' !! l
     = Some {[ "authorizationURL" := JStr "https://accounts.google.com/o/oauth2/auth";
               "tokenURL" := JStr "https://accounts.google.com/o/oauth2/token";
               "scope" := JArr [JStr "https://www.googleapis.com/auth/youtube.readonly"] ]}
  /\ forall l', l' <> this -> l' <> l -> σ' !! l' = σ !! l'.
Proof.
  intros Hthis Hframe σ' l.
  assert (Hl : σ !! l = None).
  { apply not_elem_of_dom. subst l. apply is_fresh. }
  assert (Hne : this <> l).
  { intros ->. rewrite Hl in Hthis. by destruct Hthis. }
  split; [exact Hl |]. subst σ'. rewrite Strategy_None. fold l. split.
  - rewrite (Strategy_options_after _ _ _ _ ∅ _ (lookup_insert_eq _ _ _) Hne).
    + reflexivity.
    + intros σ0. by apply Hframe.
  - intros l' H1 H2.
    rewrite (Strategy_Some _ _ _ _ ∅ _ (lookup_insert_eq _ _ _)).
    specialize (Hframe (<[l := with_defaults ∅]> (<[l := ∅]> σ)) l l' H1).
    destruct (OAuth2Strategy _ this l verify) as [σ0 [e |]]; simpl in *.
    + by rewrite Hframe, !lookup_insert_ne.
    + rewrite !lookup_set_field_ne by done. by rewrite Hframe, !lookup_insert_ne.
Qed.

Lemma Strategy_without_options_example :
  let σ' := (Strategy base_keeps_verify caller_store 0 None (JHost "verify")).1 in
  let l := fresh (dom caller_store) in
  caller_store !! l = None
  /\ σ' !! l
     = Some {[ "authorizationURL" := JStr "https://accounts.google.com/o/oauth2/auth";
               "tokenURL" := JStr "https://accounts.google.com/o/oauth2/token";
               "scope" := JArr [JStr "https://www.googleapis.com/auth/youtube.readonly"] ]}
  /\ forall l', l' <> 0 -> l' <> l -> σ' !! l' = caller_store !! l'.
Proof.
  apply (Strategy_without_options base_keeps_verify caller_store 0 (JHost "verify")).
  - vm_compute. eauto.
  - intros σ0 l0 l' H. unfold base_keeps_verify. simpl. by apply lookup_set_field_ne.
Defined.

(** X6.  A strategy constructed with a truthy [profileURL] option fetches
    the profile from that URL, and from the channels URL otherwise: what
    [userProfile] does on the store the constructor leaves is the response
    callback run on what the fetch of that URL hands over. *)
Theorem userProfile_fetches_configured_URL
    (OAuth2Strategy : heap -> loc -> loc -> jsval -> heap * option exn)
    (JSON_parse : string -> js jsval)
    (getProtectedResource : jsval -> string -> jsval * string)
    (done : completion -> option exn)
    (σ : heap) (this l : loc) (o : gmap string jsval) (verify : jsval)
    (accessToken : string) :
  σ !! l = Some o ->
  this <> l ->
  is_Some (σ !! this) ->
  (forall σ0, (OAuth2Strategy σ0 this l verify).1 !! l = σ0 !! l) ->
  (forall σ0, is_Some (σ0 !! this) ->
              is_Some ((OAuth2Strategy σ0 this l verify).1 !! this)) ->
  (Strategy OAuth2Strategy σ this (Some l) verify).2 = None ->
  let σ' := (Strategy OAuth2Strategy σ this (Some l) verify).1 in
  let url :=
    if truthy (obj_get o "profileURL") then obj_get o "profileURL"
    else JStr "https://www.googleapis.com/youtube/v3/channels?part=snippet&mine=true" in
  userProfile JSON_parse getProtectedResource done σ' this accessToken
  = on_response JSON_parse done
      (getProtectedResource url accessToken).1
      (getProtectedResource url accessToken).2.
Proof.
  intros Ho Hne Hthis Hframe Hkeep Hok σ' url.
  destruct (Strategy_this _ _ _ _ _ _ Ho Hne Hthis Hframe Hkeep Hok) as [_ Hurl].
  unfold js_or in Hurl. unfold userProfile. subst σ' url. rewrite Hurl.
  by destruct (getProtectedResource _ accessToken).
Qed.

Lemma userProfile_fetches_configured_URL_example :
  let σ' := (Strategy base_keeps_verify configured_store 0 (Some 1) (JHost "verify")).1 in
  let o : gmap string jsval :=
    {[ "authorizationURL" := JStr "https://example.com/auth";
       "tokenURL" := JStr "https://example.com/token";
       "scope" := JArr [JStr "profile"];
       "profileURL" := JStr "https://example.com/me" ]} in
  let url :=
    if truthy (obj_get o "profileURL") then obj_get o "profileURL"
    else JStr "https://www.googleapis.com/youtube/v3/channels?part=snippet&mine=true" in
  userProfile read_json (fetch_body "null") done_returns σ' 0 "token"
  = on_response read_json done_returns
      (fetch_body "null" url "token").1 (fetch_body "null" url "token").2.
Proof.
  apply (userProfile_fetches_configured_URL base_keeps_verify read_json
           (fetch_body "null") done_returns configured_store 0 1 _ (JHost "verify")
           "token").
  - reflexivity.
  - discriminate.
  - vm_compute. eauto.
  - intros σ0. by apply base_keeps_verify_frame.
  - intros σ0. apply base_keeps_verify_this.
  - vm_compute. reflexivity.
Defined.

(** ** Further properties of [userProfile] *)

(** X7.  The response callback makes exactly one of three runs: a single
    call [done(err)]; a single call [done(null, profile)] that returns;
    or, exactly when [done(null, profile)] throws, that call followed by a
    second call of [done] with the exception the first one threw.  What
    escapes the callback is what its last call of [done] throws. *)
Theorem userProfile_calls_of_done
    (JSON_parse : string -> js jsval)
    (getProtectedResource : jsval -> string -> jsval * string)
    (done : completion -> option exn)
    (σ : heap) (this : loc) (accessToken : string) :
  let r := userProfile JSON_parse getProtectedResource done σ this accessToken in
  (exists err,
      calls r = [done_error err]
      /\ uncaught r = done (done_error err))
  \/ (exists profile,
        calls r = [done_profile profile]
        /\ done (done_profile profile) = None
        /\ uncaught r = None)
  \/ (exists profile e,
        calls r = [done_profile profile; done_error (Caught e)]
        /\ done (done_profile profile) = Some e
        /\ uncaught r = done (done_error (Caught e))).
Proof.
  unfold userProfile.
  destruct (getProtectedResource _ accessToken) as [err body].
  unfold on_response. destruct (truthy err); [left; eauto |].
  destruct (profile_of_body JSON_parse body) as [e | profile]; [left; eauto |].
  destruct (done (done_profile profile)) as [e |] eqn:Hd; simpl.
  - right. right. exists profile, e. eauto.
  - right. left. exists profile. eauto.
Qed.

(** With a continuation that throws on a profile, [done] is called
    twice. *)
Example userProfile_calls_done_twice :
  userProfile read_json (fetch_body (quoted "{'items':[]}")) done_throws
    strategy_store 0 "token"
  = Run [done_profile (empty_Profile (quoted "{'items':[]}")
                         (JObj {[ "items" := JArr [] ]}));
         done_error (Caught (Raised (JStr "verify failed")))]
        None.
Proof. vm_compute. reflexivity. Qed.

(** X8.  With a continuation that never throws, the response callback
    calls [done] exactly once and lets no exception escape. *)
Theorem userProfile_single_completion
    (JSON_parse : string -> js jsval)
    (getProtectedResource : jsval -> string -> jsval * string)
    (done : completion -> option exn)
    (σ : heap) (this : loc) (accessToken : string) :
  (forall c, done c = None) ->
  exists c,
    userProfile JSON_parse getProtectedResource done σ this accessToken = Run [c] None.
Proof.
  intros Hd. unfold userProfile.
  destruct (getProtectedResource _ accessToken) as [err body].
  unfold on_response. destruct (truthy err); [rewrite Hd; eauto |].
  destruct (profile_of_body JSON_parse body) as [e | profile]; rewrite Hd; eauto.
Qed.

Lemma userProfile_single_completion_example :
  exists c,
    userProfile read_json (fetch_body "not json") done_returns strategy_store 0 "token"
    = Run [c] None.
Proof.
  apply (userProfile_single_completion read_json (fetch_body "not json") done_returns
           strategy_store 0 "token").
  reflexivity.
Defined.

Lemma profile_of_json_falsy_first (body : string) (json x : jsval) (rest : list jsval) :
  member json "items" = Some (JArr (x :: rest)) ->
  truthy x = false ->
  profile_of_json body json = inr (empty_Profile body json).
Proof.
  intros Hi Hx. unfold profile_of_json.
  rewrite (first_of_items _ _ _ (get_member _ _ _ Hi)). simpl. rewrite Hx.
  reflexivity.
Qed.

Lemma profile_of_json_first_without_snippet (body : string) (json x : jsval)
    (rest : list jsval) :
  member json "items" = Some (JArr (x :: rest)) ->
  truthy x = true ->
  member x "snippet" = None ->
  profile_of_json body json = inl (TypeError_read JUndefined "title").
Proof.
  intros Hi Hx Hs. unfold profile_of_json.
  rewrite (first_of_items _ _ _ (get_member _ _ _ Hi)). simpl. rewrite Hx.
  destruct (get_truthy x "id" Hx) as [id ->]. simpl.
  rewrite (get_no_member x "snippet"); try done; try compute_done;
    intros ->; discriminate.
Qed.

(** X9.  A non-empty item list whose first item is falsy ([null],
    [false], [0] or the empty string) gives the empty profile, like an
    empty item list: [id] and [displayName] are not set. *)
Theorem fetchProfile_falsy_first_item
    (JSON_parse : string -> js jsval)
    (getProtectedResource : jsval -> string -> jsval * string)
    (done : completion -> option exn)
    (σ : heap) (this : loc) (accessToken : string)
    (err : jsval) (body : string) (json x : jsval) (rest : list jsval) :
  getProtectedResource (get_field σ this "_profileURL") accessToken = (err, body) ->
  truthy err = false ->
  JSON_parse body = inr json ->
  member json "items" = Some (JArr (x :: rest)) ->
  truthy x = false ->
  completes_with done
    (userProfile JSON_parse getProtectedResource done σ this accessToken)
    (done_profile (empty_Profile body json))
  /\ empty_Profile body json !! "id" = None
  /\ empty_Profile body json !! "displayName" = None.
Proof.
  intros Hf He Hp Hi Hx. split; [| split; reflexivity].
  rewrite (userProfile_on_response _ _ _ _ _ _ _ _ Hf).
  apply on_response_profile; [exact He |].
  rewrite (profile_of_body_json _ _ _ Hp). by eapply profile_of_json_falsy_first.
Qed.

Lemma fetchProfile_falsy_first_item_example :
  completes_with done_returns
    (userProfile read_json (fetch_body (quoted "{'items':[null,{'id':'abc'}]}"))
       done_returns strategy_store 0 "token")
    (done_profile
       (empty_Profile (quoted "{'items':[null,{'id':'abc'}]}")
          (JObj {[ "items" := JArr [JNull; JObj {[ "id" := JStr "abc" ]}] ]})))
  /\ empty_Profile (quoted "{'items':[null,{'id':'abc'}]}")
       (JObj {[ "items" := JArr [JNull; JObj {[ "id" := JStr "abc" ]}] ]}) !! "id" = None
  /\ empty_Profile (quoted "{'items':[null,{'id':'abc'}]}")
       (JObj {[ "items" := JArr [JNull; JObj {[ "id" := JStr "abc" ]}] ]})
       !! "displayName" = None.
Proof.
  apply (fetchProfile_falsy_first_item read_json _ done_returns strategy_store 0 "token"
           JNull _ _ JNull [JObj {[ "id" := JStr "abc" ]}]);
    [reflexivity | reflexivity | vm_compute; reflexivity | reflexivity | reflexivity].
Defined.

(** X10.  A non-empty item list whose first item is truthy and has no
    [snippet] member, be it an object without one or a number, a string,
    [true] or an array, ends in the [TypeError] of reading [title] from
    [undefined], handed to [done] in a single call. *)
Theorem fetchProfile_first_item_without_snippet
    (JSON_parse : string -> js jsval)
    (getProtectedResource : jsval -> string -> jsval * string)
    (done : completion -> option exn)
    (σ : heap) (this : loc) (accessToken : string)
    (err : jsval) (body : string) (json x : jsval) (rest : list jsval) :
  getProtectedResource (get_field σ this "_profileURL") accessToken = (err, body) ->
  truthy err = false ->
  JSON_parse body = inr json ->
  member json "items" = Some (JArr (x :: rest)) ->
  truthy x = true ->
  member x "snippet" = None ->
  calls (userProfile JSON_parse getProtectedResource done σ this accessToken)
  = [done_error (Caught (TypeError_read JUndefined "title"))].
Proof.
  intros Hf He Hp Hi Hx Hs.
  rewrite (userProfile_on_response _ _ _ _ _ _ _ _ Hf).
  rewrite (on_response_caught _ _ _ _ (TypeError_read JUndefined "title") He);
    [reflexivity |].
  rewrite (profile_of_body_json _ _ _ Hp).
  by eapply profile_of_json_first_without_snippet.
Qed.

Lemma fetchProfile_first_item_without_snippet_example :
  calls (userProfile read_json (fetch_body (quoted "{'items':[42]}"))
           done_returns strategy_store 0 "token")
  = [done_error (Caught (TypeError_read JUndefined "title"))].
Proof.
  apply (fetchProfile_first_item_without_snippet read_json _ done_returns
           strategy_store 0 "token" JNull (quoted "{'items':[42]}")
           (JObj {[ "items" := JArr [JNum (S754_finite false 5910974510923776 (-47))] ]})
           (JNum (S754_finite false 5910974510923776 (-47))) []);
    [reflexivity | reflexivity | vm_compute; reflexivity | reflexivity | reflexivity
    | reflexivity].
Defined.

(** X11.  The only exceptions the fetch reports for a response are the
    one [JSON.parse] throws, the [TypeError] of reading [items] from
    a parsed [null], and the [TypeError] of reading [title] from a
    snippet that is missing or [null]. *)
Theorem fetchProfile_reported_exceptions
    (JSON_parse : string -> js jsval)
    (getProtectedResource : jsval -> string -> jsval * string)
    (done : completion -> option exn)
    (σ : heap) (this : loc) (accessToken : string)
    (err : jsval) (body : string) (e : exn) :
  getProtectedResource (get_field σ this "_profileURL") accessToken = (err, body) ->
  head (calls (userProfile JSON_parse getProtectedResource done σ this accessToken))
  = Some (done_error (Caught e)) ->
  JSON_parse body = inl e
  \/ exists json,
       JSON_parse body = inr json
       /\ (((json = JUndefined \/ json = JNull) /\ e = TypeError_read json "items")
           \/ exists snippet,
                (snippet = JUndefined \/ snippet = JNull)
                /\ e = TypeError_read snippet "title").
Proof.
  intros Hf. rewrite (userProfile_on_response _ _ _ _ _ _ _ _ Hf).
  unfold on_response. destruct (truthy err); [discriminate |].
  destruct (profile_of_body JSON_parse body) as [e0 | profile] eqn:Hb.
  - simpl. intros [= <-]. unfold profile_of_body in Hb.
    destruct (JSON_parse body) as [e1 | json]; simpl in Hb.
    + left. congruence.
    + right. exists json. split; [reflexivity |]. by eapply profile_of_json_throws.
  - by destruct (done (done_profile profile)).
Qed.

Lemma fetchProfile_reported_exceptions_example :
  read_json "null" = inl (TypeError_read JNull "items")
  \/ exists json,
       read_json "null" = inr json
       /\ (((json = JUndefined \/ json = JNull)
            /\ TypeError_read JNull "items" = TypeError_read json "items")
           \/ exists snippet,
                (snippet = JUndefined \/ snippet = JNull)
                /\ TypeError_read JNull "items" = TypeError_read snippet "title").
Proof.
  apply (fetchProfile_reported_exceptions read_json (fetch_body "null") done_returns
           strategy_store 0 "token" JNull "null" (TypeError_read JNull "items"));
    reflexivity.
Defined.

(** A profile that is built is the empty profile or a full one. *)
Lemma profile_of_json_shape (body : string) (json : jsval) (profile : gmap string jsval) :
  profile_of_json body json = inr profile ->
  profile = empty_Profile body json
  \/ exists id title, profile = Profile id title body json.
Proof.
  unfold profile_of_json.
  match goal with |- context [js_bind ?m _] => destruct m as [e | y] end;
    simpl; [discriminate |].
  destruct (truthy y); simpl.
  - destruct (get y "id") as [e | id]; simpl; [discriminate |].
    destruct (get y "snippet") as [e | sn]; simpl; [discriminate |].
    destruct (get sn "title") as [e | t]; simpl; [discriminate |].
    intros [= <-]. right. exists id, t. reflexivity.
  - intros [= <-]. left. reflexivity.
Qed.

Lemma Profile_keys (id title : jsval) (body : string) (json : jsval) (k : string) :
  is_Some (Profile id title body json !! k) -> k ∈ profile_keys.
Proof.
  unfold Profile, profile_keys.
  repeat (rewrite lookup_insert; case_decide; [subst k; intros _; compute_done |]).
  destruct (decide ("_json" = k)) as [<- | Hk]; [intros _; compute_done |].
  rewrite lookup_singleton_ne by done. by intros [? ?].
Qed.

Lemma empty_Profile_keys (body : string) (json : jsval) (k : string) :
  is_Some (empty_Profile body json !! k) -> k ∈ profile_keys.
Proof.
  unfold empty_Profile, profile_keys.
  repeat (rewrite lookup_insert; case_decide; [subst k; intros _; compute_done |]).
  destruct (decide ("_json" = k)) as [<- | Hk]; [intros _; compute_done |].
  rewrite lookup_singleton_ne by done. by intros [? ?].
Qed.

(** X12.  Every profile the fetch hands to [done] carries the body of
    the response as [_raw] and its parsed value as [_json], whatever
    members the response has; its [id] and [displayName] are set together
    or not at all; and it has no property besides [provider], [id],
    [displayName], [_raw] and [_json]. *)
Theorem fetchProfile_profile_shape
    (JSON_parse : string -> js jsval)
    (getProtectedResource : jsval -> string -> jsval * string)
    (done : completion -> option exn)
    (σ : heap) (this : loc) (accessToken : string)
    (err : jsval) (body : string) (profile : gmap string jsval) :
  getProtectedResource (get_field σ this "_profileURL") accessToken = (err, body) ->
  done_profile profile
    ∈ calls (userProfile JSON_parse getProtectedResource done σ this accessToken) ->
  exists json,
    JSON_parse body = inr json
    /\ profile !! "_raw" = Some (JStr body)
    /\ profile !! "_json" = Some json
    /\ (is_Some (profile !! "id") <-> is_Some (profile !! "displayName"))
    /\ forall k, is_Some (profile !! k) -> k ∈ profile_keys.
Proof.
  intros Hf. rewrite (userProfile_on_response _ _ _ _ _ _ _ _ Hf).
  intros H. apply on_response_profiles in H as [_ H].
  unfold profile_of_body in H.
  destruct (JSON_parse body) as [e | json]; simpl in H; [discriminate |].
  exists json. split; [reflexivity |].
  destruct (profile_of_json_shape _ _ _ H) as [-> | (id & title & ->)].
  - split; [reflexivity |]. split; [reflexivity |]. split.
    + split; intros [? Hx]; discriminate Hx.
    + apply empty_Profile_keys.
  - split; [reflexivity |]. split; [reflexivity |]. split.
    + split; intros _; by eexists.
    + apply Profile_keys.
Qed.

Lemma fetchProfile_profile_shape_example :
  exists json,
    read_json (quoted "{'_raw':'x','items':[{'id':7,'snippet':{}}]}") = inr json
    /\ Profile (JNum (S754_finite false 7881299347898368 (-50))) JUndefined
         (quoted "{'_raw':'x','items':[{'id':7,'snippet':{}}]}")
         (JObj {[ "_raw" := JStr "x";
                  "items" := JArr [JObj {[ "id" := JNum (S754_finite false
                                                           7881299347898368 (-50));
                                           "snippet" := JObj ∅ ]}] ]})
         !! "_raw" = Some (JStr (quoted "{'_raw':'x','items':[{'id':7,'snippet':{}}]}"))
    /\ Profile (JNum (S754_finite false 7881299347898368 (-50))) JUndefined
         (quoted "{'_raw':'x','items':[{'id':7,'snippet':{}}]}")
         (JObj {[ "_raw" := JStr "x";
                  "items" := JArr [JObj {[ "id" := JNum (S754_finite false
                                                           7881299347898368 (-50));
                                           "snippet" := JObj ∅ ]}] ]})
         !! "_json" = Some json
    /\ (is_Some (Profile (JNum (S754_finite false 7881299347898368 (-50))) JUndefined
                   (quoted "{'_raw':'x','items':[{'id':7,'snippet':{}}]}")
                   (JObj {[ "_raw" := JStr "x";
                            "items" := JArr [JObj {[ "id" := JNum (S754_finite false
                                                           7881299347898368 (-50));
                                                     "snippet" := JObj ∅ ]}] ]})
                   !! "id")
        <-> is_Some (Profile (JNum (S754_finite false 7881299347898368 (-50))) JUndefined
                       (quoted "{'_raw':'x','items':[{'id':7,'snippet':{}}]}")
                       (JObj {[ "_raw" := JStr "x";
                                "items" := JArr [JObj {[ "id" := JNum (S754_finite false
                                                           7881299347898368 (-50));
                                                         "snippet" := JObj ∅ ]}] ]})
                       !! "displayName"))
    /\ forall k,
         is_Some (Profile (JNum (S754_finite false 7881299347898368 (-50))) JUndefined
                    (quoted "{'_raw':'x','items':[{'id':7,'snippet':{}}]}")
                    (JObj {[ "_raw" := JStr "x";
                             "items" := JArr [JObj {[ "id" := JNum (S754_finite false
                                                           7881299347898368 (-50));
                                                      "snippet" := JObj ∅ ]}] ]})
                    !! k) ->
         k ∈ profile_keys.
Proof.
  apply (fetchProfile_profile_shape read_json
           (fetch_body (quoted "{'_raw':'x','items':[{'id':7,'snippet':{}}]}"))
           done_returns strategy_store 0 "token" JNull).
  - reflexivity.
  - vm_compute. apply list_elem_of_here.
Defined.

(** ** Further properties of [authorizationParams] *)

(** X13.  An option whose name is not a recognized one is ignored:
    setting it, to any value, does not change the parameter map. *)
Theorem authorizationParams_ignores_unrecognized
    (options : gmap string jsval) (k : string) (v : jsval) :
  k ∉ recognized_options ->
  authorizationParams (<[k := v]> options) = authorizationParams options.
Proof.
  intros Hk. unfold authorizationParams.
  rewrite !obj_get_insert_ne by (intros ->; apply Hk; compute_done).
  reflexivity.
Qed.

Lemma authorizationParams_ignores_unrecognized_example :
  authorizationParams (<["state" := JStr "xyz"]> three_options)
  = authorizationParams three_options.
Proof.
  apply (authorizationParams_ignores_unrecognized three_options "state" (JStr "xyz")).
  compute_done.
Defined.

Lemma set_if_same_or_falsy (a b : jsval) (k : string) (p p' : gmap string jsval) :
  same_or_falsy a b -> p = p' -> set_if a k a p = set_if b k b p'.
Proof.
  intros [-> | [Ha Hb]] ->; [reflexivity |]. unfold set_if. by rewrite Ha, Hb.
Qed.

Lemma js_or_same_or_falsy (a1 a2 b1 b2 : jsval) :
  same_or_falsy a1 b1 -> same_or_falsy a2 b2 ->
  same_or_falsy (js_or a1 a2) (js_or b1 b2).
Proof.
  intros [-> | [Ha Hb]] H2; unfold js_or.
  - destruct (truthy b1); [by left | exact H2].
  - by rewrite Ha, Hb.
Qed.

Lemma obj_get_delete_falsy (o : gmap string jsval) (k : string) (v : jsval) (n : string) :
  o !! k = Some v -> truthy v = false -> n ∉ Object_prototype ->
  same_or_falsy (obj_get o n) (obj_get (delete k o) n).
Proof.
  intros Hk Hv Hn. unfold obj_get. destruct (decide (k = n)) as [<- | Hne].
  - right. rewrite Hk, lookup_delete_eq, (inherited_undefined _ Hn). by split.
  - left. by rewrite lookup_delete_ne.
Qed.

(** X14.  An option set to a falsy value (the empty string, [null],
    [0], [false]) is the same as an absent one: removing it does not
    change the parameter map. *)
Theorem authorizationParams_falsy_is_absent
    (options : gmap string jsval) (k : string) (v : jsval) :
  options !! k = Some v ->
  truthy v = false ->
  authorizationParams options = authorizationParams (delete k options).
Proof.
  intros Hk Hv. unfold authorizationParams. cbv zeta.
  repeat (apply set_if_same_or_falsy;
          [first [ apply js_or_same_or_falsy | idtac ];
           apply (obj_get_delete_falsy _ _ _ _ Hk Hv); compute_done |]).
  reflexivity.
Qed.

Lemma authorizationParams_falsy_is_absent_example :
  authorizationParams falsy_option = authorizationParams (delete "prompt" falsy_option).
Proof.
  apply (authorizationParams_falsy_is_absent falsy_option "prompt" (JStr ""));
    reflexivity.
Defined.

(** X15.  Whatever the options, every entry of the parameter map is
    under one of the nine query keys and carries a truthy value: no other
    key is ever written, and no empty or otherwise falsy value is ever
    passed on. *)
Theorem authorizationParams_entries
    (options : gmap string jsval) (q : string) (v : jsval) :
  authorizationParams options !! q = Some v ->
  q ∈ param_keys /\ truthy v = true.
Proof.
  rewrite lookup_authorizationParams. cbv zeta.
  repeat (case_decide;
          [subst q;
           match goal with |- context [truthy ?c] => destruct (truthy c) eqn:Hc end;
           [intros [= <-]; split; [compute_done | exact Hc] | discriminate] |]).
  discriminate.
Qed.

Lemma authorizationParams_entries_example :
  "access_type" ∈ param_keys /\ truthy (JStr "offline") = true.
Proof.
  apply (authorizationParams_entries falsy_option "access_type" (JStr "offline")).
  reflexivity.
Defined.

(** X16.  When [hostedDomain] is absent or falsy, the [hd] entry is the
    value of the [hd] option if that is truthy, and there is no [hd]
    entry otherwise. *)
Theorem authorizationParams_hd_fallback (options : gmap string jsval) :
  truthy (obj_get options "hostedDomain") = false ->
  authorizationParams options !! "hd"
  = if truthy (obj_get options "hd") then Some (obj_get options "hd") else None.
Proof.
  intros Hh. rewrite lookup_authorizationParams. cbv zeta. simpl.
  unfold js_or. by rewrite Hh.
Qed.

Lemma authorizationParams_hd_fallback_example :
  authorizationParams only_hd !! "hd"
  = if truthy (obj_get only_hd "hd") then Some (obj_get only_hd "hd") else None.
Proof. apply (authorizationParams_hd_fallback only_hd). reflexivity. Defined.

(** ** Further properties of [_convertProfileFields] *)

Lemma each_field_contribution (fields : list jsval) (f : string) :
  each_field fields f = fields ++ contribution f.
Proof.
  unfold contribution. case_decide as Hr.
  - apply list_elem_of_In in Hr. simpl in Hr.
    destruct Hr as [<- | [<- | [<- | [<- | []]]]]; reflexivity.
  - case_decide as Hp.
    + by apply each_field_inherited.
    + rewrite (each_field_unrecognized _ _ Hr Hp). by rewrite app_nil_r.
Qed.

Lemma fold_each_field_contribution (profileFields : list string) (fields : list jsval) :
  fold_left each_field profileFields fields
  = fields ++ flat_map contribution profileFields.
Proof.
  revert fields. induction profileFields as [| f fs IH]; intros fields; simpl.
  - by rewrite app_nil_r.
  - by rewrite IH, each_field_contribution, app_assoc.
Qed.

(** X17.  For every sequence of requested names, the result is the
    comma-joined text of what the names contribute in the order of the
    request: a recognized name its provider fields, a name that
    [Object.prototype] defines the object inherited under it, and any
    other name nothing. *)
Theorem convertProfileFields_contributions
    (ToString : jsval -> string) (profileFields : list string) :
  _convertProfileFields ToString profileFields
  = JStr (join ToString "," (flat_map contribution profileFields)).
Proof.
  unfold _convertProfileFields. cbv zeta.
  by rewrite fold_each_field_contribution.
Qed.

(** X18.  A requested name that [Object.prototype] defines, such as
    [constructor], [toString] or [__proto__], is not dropped: alone, it
    gives the text of the object inherited under that name. *)
Theorem convertProfileFields_inherited
    (ToString : jsval -> string) (f : string) :
  f ∈ Object_prototype ->
  _convertProfileFields ToString [f] = JStr (ToString (JHost f)).
Proof.
  intros Hf. unfold _convertProfileFields. cbv zeta. simpl.
  by rewrite (each_field_inherited _ _ Hf).
Qed.

Lemma convertProfileFields_inherited_example :
  _convertProfileFields host_text ["constructor"]
  = JStr (host_text (JHost "constructor")).
Proof.
  apply (convertProfileFields_inherited host_text "constructor"). compute_done.
Defined.
